(** * aim: the Jira polling, normalisation and cache core

    A shallow embedding of [common/jira.go]: the JQL construction and the
    paginated retrieval of [GetIssues], the field mapper
    [ConvertToCustomIssues], the issue cache written by [updateIssueCache]
    and the refresh step [RefreshData].

    Conventions of the embedding.
    - [time.Time] is the instant it denotes, an integer count of
      nanoseconds from Go's zero time; the zero value of the type is [0]
      and [IsZero] tests for it.
    - A Go string is a [string]; the zero value is the empty string.
    - A pointer that the code tests against [nil] is an [option].
    - [interface{}] values decoded from JSON are the tagged type
      [jira.Value]; a type assertion [v.(T)] is a match on the tag.
    - A run-time panic is the outcome [Panics]: nothing in the code
      recovers from one.
    - The receiver [j *JiraClient] is passed and returned explicitly.
      The calls on [j.obs] only write to the logging sink and are left
      out; [j.mu] guards single assignments and has no sequential
      content. *)

From Stdlib Require Import ZArith Lia String List Sorted.
From stdpp Require Import base option list gmap strings pretty fin_maps.

Local Open Scope string_scope.
Set Warnings "-register-all".

(** ** Values of the standard library used by the code *)

Definition Time : Type := Z.
Definition zeroTime : Time := 0%Z.
Definition IsZero (t : Time) : bool := (t =? 0)%Z.

(** [error] values: [errors.New]-like leaves and [fmt.Errorf("...%w", err)]
    wrappers. [Error] is the message, [Unwrap] the wrapped cause. *)
Inductive error : Type :=
  | ErrorNew (msg : string)
  | ErrorWrap (prefix : string) (cause : error).

Fixpoint Error (e : error) : string :=
  match e with
  | ErrorNew msg => msg
  | ErrorWrap prefix cause => prefix +:+ Error cause
  end.

Definition Unwrap (e : error) : option error :=
  match e with
  | ErrorNew _ => None
  | ErrorWrap _ cause => Some cause
  end.

(** ** The types of the go-jira client that the code reads *)

Module jira.

(** What [encoding/json] puts behind an [interface{}]. A number is a
    float64, kept as its bit pattern: no rule of the mapper looks at it. *)
Inductive Value : Type :=
  | VNil
  | VBool (b : bool)
  | VNumber (bits : Z)
  | VString (s : string)
  | VArray (elems : list Value)
  | VObject (members : gmap string Value).

(** [jira.User]: the login name and the display name. *)
Record User : Type := mkUser {
  Name : string;
  DisplayName : string
}.

(** [jira.IssueType], of which the code reads [Name]. *)
Record IssueType : Type := mkIssueType {
  TypeName : string
}.

(** [jira.IssueFields], restricted to what [ConvertToCustomIssues]
    reads. [Unknowns] is a [map[string]interface{}]; indexing a missing
    key yields the nil interface, which fails every type assertion, so a
    lookup returning [None] and one returning [Some VNil] are treated
    alike below. *)
Record IssueFields : Type := mkIssueFields {
  Type_ : IssueType;
  Resolutiondate : Time;
  Created : Time;
  Updated : Time;
  Assignee : option User;
  Reporter : option User;
  Unknowns : gmap string Value
}.

(** [jira.Issue] with its [Fields] pointer set, as the elements of a
    search response are decoded. The pointers that a caller may hand to
    the mapper, nil ones and issues without a field block included, are
    the [IssuePointer]s below. *)
Record Issue : Type := mkIssue {
  ID : string;
  Key : string;
  Fields : IssueFields
}.

(** [jira.SearchOptions] *)
Record SearchOptions : Type := mkSearchOptions {
  StartAt : nat;
  MaxResults : nat;
  SearchFields : list string
}.

End jira.

(** ** JiraIssue, the normalised record *)

Record JiraIssue : Type := mkJiraIssue {
  Key : string;
  Created : Time;
  Updated : Time;
  Resolved : Time;
  Assignee : string;
  Closed : Time;
  Head : string;
  Started : Time;
  Firefighting : Time;
  Fixed : Time;
  Severity : string;
  Service : string;
  RootCause : string;
  Regions : string;
  Recovery : string;
  Reporter : string;
  Detected : Time;
  Escalated : Time;
  Metrics : string;
  IssueType : string;
  Environment : string;
  Application : string;
  BusinessProcess : string;
  Score : Z
}.

(** [&JiraIssue{Key: key}]: every other field at its zero value. *)
Definition newJiraIssue (key : string) : JiraIssue :=
  {| Key := key; Created := zeroTime; Updated := zeroTime;
     Resolved := zeroTime; Assignee := ""; Closed := zeroTime; Head := "";
     Started := zeroTime; Firefighting := zeroTime; Fixed := zeroTime;
     Severity := ""; Service := ""; RootCause := ""; Regions := "";
     Recovery := ""; Reporter := ""; Detected := zeroTime;
     Escalated := zeroTime; Metrics := ""; IssueType := "";
     Environment := ""; Application := ""; BusinessProcess := "";
     Score := 0%Z |}.

(** Field assignments [customIssue.F = v], one per field the code writes. *)
Definition set_Created (v : Time) (c : JiraIssue) : JiraIssue :=
  mkJiraIssue (Key c) v (Updated c) (Resolved c) (Assignee c) (Closed c)
    (Head c) (Started c) (Firefighting c) (Fixed c) (Severity c) (Service c)
    (RootCause c) (Regions c) (Recovery c) (Reporter c) (Detected c)
    (Escalated c) (Metrics c) (IssueType c) (Environment c) (Application c)
    (BusinessProcess c) (Score c).

Definition set_Updated (v : Time) (c : JiraIssue) : JiraIssue :=
  mkJiraIssue (Key c) (Created c) v (Resolved c) (Assignee c) (Closed c)
    (Head c) (Started c) (Firefighting c) (Fixed c) (Severity c) (Service c)
    (RootCause c) (Regions c) (Recovery c) (Reporter c) (Detected c)
    (Escalated c) (Metrics c) (IssueType c) (Environment c) (Application c)
    (BusinessProcess c) (Score c).

Definition set_Resolved (v : Time) (c : JiraIssue) : JiraIssue :=
  mkJiraIssue (Key c) (Created c) (Updated c) v (Assignee c) (Closed c)
    (Head c) (Started c) (Firefighting c) (Fixed c) (Severity c) (Service c)
    (RootCause c) (Regions c) (Recovery c) (Reporter c) (Detected c)
    (Escalated c) (Metrics c) (IssueType c) (Environment c) (Application c)
    (BusinessProcess c) (Score c).

Definition set_Assignee (v : string) (c : JiraIssue) : JiraIssue :=
  mkJiraIssue (Key c) (Created c) (Updated c) (Resolved c) v (Closed c)
    (Head c) (Started c) (Firefighting c) (Fixed c) (Severity c) (Service c)
    (RootCause c) (Regions c) (Recovery c) (Reporter c) (Detected c)
    (Escalated c) (Metrics c) (IssueType c) (Environment c) (Application c)
    (BusinessProcess c) (Score c).

Definition set_Closed (v : Time) (c : JiraIssue) : JiraIssue :=
  mkJiraIssue (Key c) (Created c) (Updated c) (Resolved c) (Assignee c) v
    (Head c) (Started c) (Firefighting c) (Fixed c) (Severity c) (Service c)
    (RootCause c) (Regions c) (Recovery c) (Reporter c) (Detected c)
    (Escalated c) (Metrics c) (IssueType c) (Environment c) (Application c)
    (BusinessProcess c) (Score c).

Definition set_Head (v : string) (c : JiraIssue) : JiraIssue :=
  mkJiraIssue (Key c) (Created c) (Updated c) (Resolved c) (Assignee c)
    (Closed c) v (Started c) (Firefighting c) (Fixed c) (Severity c)
    (Service c) (RootCause c) (Regions c) (Recovery c) (Reporter c)
    (Detected c) (Escalated c) (Metrics c) (IssueType c) (Environment c)
    (Application c) (BusinessProcess c) (Score c).

Definition set_Started (v : Time) (c : JiraIssue) : JiraIssue :=
  mkJiraIssue (Key c) (Created c) (Updated c) (Resolved c) (Assignee c)
    (Closed c) (Head c) v (Firefighting c) (Fixed c) (Severity c)
    (Service c) (RootCause c) (Regions c) (Recovery c) (Reporter c)
    (Detected c) (Escalated c) (Metrics c) (IssueType c) (Environment c)
    (Application c) (BusinessProcess c) (Score c).

Definition set_Firefighting (v : Time) (c : JiraIssue) : JiraIssue :=
  mkJiraIssue (Key c) (Created c) (Updated c) (Resolved c) (Assignee c)
    (Closed c) (Head c) (Started c) v (Fixed c) (Severity c) (Service c)
    (RootCause c) (Regions c) (Recovery c) (Reporter c) (Detected c)
    (Escalated c) (Metrics c) (IssueType c) (Environment c) (Application c)
    (BusinessProcess c) (Score c).

Definition set_Severity (v : string) (c : JiraIssue) : JiraIssue :=
  mkJiraIssue (Key c) (Created c) (Updated c) (Resolved c) (Assignee c)
    (Closed c) (Head c) (Started c) (Firefighting c) (Fixed c) v (Service c)
    (RootCause c) (Regions c) (Recovery c) (Reporter c) (Detected c)
    (Escalated c) (Metrics c) (IssueType c) (Environment c) (Application c)
    (BusinessProcess c) (Score c).

Definition set_Service (v : string) (c : JiraIssue) : JiraIssue :=
  mkJiraIssue (Key c) (Created c) (Updated c) (Resolved c) (Assignee c)
    (Closed c) (Head c) (Started c) (Firefighting c) (Fixed c) (Severity c)
    v (RootCause c) (Regions c) (Recovery c) (Reporter c) (Detected c)
    (Escalated c) (Metrics c) (IssueType c) (Environment c) (Application c)
    (BusinessProcess c) (Score c).

Definition set_RootCause (v : string) (c : JiraIssue) : JiraIssue :=
  mkJiraIssue (Key c) (Created c) (Updated c) (Resolved c) (Assignee c)
    (Closed c) (Head c) (Started c) (Firefighting c) (Fixed c) (Severity c)
    (Service c) v (Regions c) (Recovery c) (Reporter c) (Detected c)
    (Escalated c) (Metrics c) (IssueType c) (Environment c) (Application c)
    (BusinessProcess c) (Score c).

Definition set_Reporter (v : string) (c : JiraIssue) : JiraIssue :=
  mkJiraIssue (Key c) (Created c) (Updated c) (Resolved c) (Assignee c)
    (Closed c) (Head c) (Started c) (Firefighting c) (Fixed c) (Severity c)
    (Service c) (RootCause c) (Regions c) (Recovery c) v (Detected c)
    (Escalated c) (Metrics c) (IssueType c) (Environment c) (Application c)
    (BusinessProcess c) (Score c).

Definition set_IssueType (v : string) (c : JiraIssue) : JiraIssue :=
  mkJiraIssue (Key c) (Created c) (Updated c) (Resolved c) (Assignee c)
    (Closed c) (Head c) (Started c) (Firefighting c) (Fixed c) (Severity c)
    (Service c) (RootCause c) (Regions c) (Recovery c) (Reporter c)
    (Detected c) (Escalated c) (Metrics c) v (Environment c) (Application c)
    (BusinessProcess c) (Score c).

(** ** JiraClient *)

(** The fields of [JiraClient] that the code reads or writes after
    construction. [issueCache] maps an issue ID to the issue stored by
    [updateIssueCache]; the stored pointers are never written through, so
    the map holds the issues themselves. *)
Record JiraClient : Type := mkJiraClient {
  baseURL : string;
  username : string;
  projectKey : string;
  queryFilter : string;
  refreshInterval : Z;
  lastRefresh : Time;
  issueCache : gmap string jira.Issue
}.

(** What [NewJiraClient] returns on success: the zero [lastRefresh] and an
    empty cache. *)
Definition NewJiraClient (url user project filter : string) (interval : Z)
  : JiraClient :=
  {| baseURL := url; username := user; projectKey := project;
     queryFilter := filter; refreshInterval := interval;
     lastRefresh := zeroTime; issueCache := ∅ |}.

Definition set_lastRefresh (t : Time) (j : JiraClient) : JiraClient :=
  mkJiraClient (baseURL j) (username j) (projectKey j) (queryFilter j)
    (refreshInterval j) t (issueCache j).

Definition set_issueCache (m : gmap string jira.Issue) (j : JiraClient)
  : JiraClient :=
  mkJiraClient (baseURL j) (username j) (projectKey j) (queryFilter j)
    (refreshInterval j) (lastRefresh j) m.

(** [updateIssueCache]: [j.issueCache[issue.ID] = issue]. *)
Definition updateIssueCache (issue : jira.Issue) (j : JiraClient)
  : JiraClient :=
  set_issueCache (<[jira.ID issue := issue]> (issueCache j)) j.

(** ** Type assertions on decoded values *)

(** [v.(string)], [v.(map[string]interface{})] and [v.([]interface{})]
    applied to the result of indexing a map or a slice: [Some] is
    [ok == true]. *)
Definition as_string (v : option jira.Value) : option string :=
  match v with
  | Some (jira.VString s) => Some s
  | _ => None
  end.

Definition as_object (v : option jira.Value)
  : option (gmap string jira.Value) :=
  match v with
  | Some (jira.VObject members) => Some members
  | _ => None
  end.

Definition as_array (v : option jira.Value) : option (list jira.Value) :=
  match v with
  | Some (jira.VArray elems) => Some elems
  | _ => None
  end.

(** The layout handed to [time.Parse] by the three timestamp rules. *)
Definition timeLayout : string := "2006-01-02T15:04:05.999-0700".

Section FieldMapper.

(** [time.Parse layout value]: [Some t] when it returns [t] with a nil
    error, [None] when it returns an error. The function belongs to Go's
    standard library and is a parameter of the development. *)
Variable time_Parse : string → string → option Time.

(** The body of the loop of [ConvertToCustomIssues], statement by
    statement. *)
Definition convertIssue (issue : jira.Issue) : JiraIssue :=
  let fields := jira.Fields issue in
  let customIssue := newJiraIssue (jira.Key issue) in
  let customIssue :=
    match jira.Assignee fields with
    | Some u => set_Assignee (jira.Name u) customIssue
    | None => customIssue
    end in
  let customIssue :=
    match jira.Reporter fields with
    | Some u => set_Reporter (jira.Name u) customIssue
    | None => customIssue
    end in
  let customIssue := set_Created (jira.Created fields) customIssue in
  let customIssue := set_Updated (jira.Updated fields) customIssue in
  let customIssue :=
    if negb (IsZero (jira.Resolutiondate fields))
    then set_Resolved (jira.Resolutiondate fields) customIssue
    else customIssue in
  let customIssue :=
    if negb (String.eqb (jira.TypeName (jira.Type_ fields)) "")
    then set_IssueType (jira.TypeName (jira.Type_ fields)) customIssue
    else customIssue in
  (* customfield_20908 (closed) *)
  let customIssue :=
    match as_string (jira.Unknowns fields !! "customfield_20908") with
    | Some val =>
        if negb (String.eqb val "") then
          match time_Parse timeLayout val with
          | Some t => set_Closed t customIssue
          | None => customIssue
          end
        else customIssue
    | None => customIssue
    end in
  (* customfield_22501 (head) *)
  let customIssue :=
    match as_object (jira.Unknowns fields !! "customfield_22501") with
    | Some val =>
        match as_string (val !! "name") with
        | Some name => set_Head name customIssue
        | None => customIssue
        end
    | None => customIssue
    end in
  (* customfield_18117 (started) *)
  let customIssue :=
    match as_string (jira.Unknowns fields !! "customfield_18117") with
    | Some val =>
        if negb (String.eqb val "") then
          match time_Parse timeLayout val with
          | Some t => set_Started t customIssue
          | None => customIssue
          end
        else customIssue
    | None => customIssue
    end in
  (* customfield_21200 (firefighting) *)
  let customIssue :=
    match as_string (jira.Unknowns fields !! "customfield_21200") with
    | Some val =>
        if negb (String.eqb val "") then
          match time_Parse timeLayout val with
          | Some t => set_Firefighting t customIssue
          | None => customIssue
          end
        else customIssue
    | None => customIssue
    end in
  (* Severity *)
  let customIssue :=
    match as_object (jira.Unknowns fields !! "customfield_18119") with
    | Some val =>
        match as_string (val !! "value") with
        | Some value => set_Severity value customIssue
        | None => customIssue
        end
    | None => customIssue
    end in
  (* Service *)
  let customIssue :=
    match as_array (jira.Unknowns fields !! "customfield_33803") with
    | Some val =>
        if (0 <? length val)%nat then
          match as_string (val !! 0%nat) with
          | Some serviceVal => set_Service serviceVal customIssue
          | None => customIssue
          end
        else customIssue
    | None => customIssue
    end in
  (* Root Cause *)
  let customIssue :=
    match as_array (jira.Unknowns fields !! "customfield_37238") with
    | Some val =>
        if (0 <? length val)%nat then
          match as_string (val !! 0%nat) with
          | Some causeVal => set_RootCause causeVal customIssue
          | None => customIssue
          end
        else customIssue
    | None => customIssue
    end in
  customIssue.

(** [ConvertToCustomIssues]: the loop appends one record per issue and the
    function returns the slice with a nil error. The receiver is neither
    read nor written; it is threaded to make that a statement. *)
Definition ConvertToCustomIssues (j : JiraClient) (issues : list jira.Issue)
  : JiraClient * (list JiraIssue * option error) :=
  let customIssues :=
    foldl (λ acc issue, (acc ++ [convertIssue issue])%list) [] issues in
  (j, (customIssues, None)).

End FieldMapper.

(** ** The query engine *)

(** The JQL text of [GetIssues]: the [Sprintf] of the default query and,
    for a non-empty [queryFilter], a second [Sprintf] that appends the
    filter to it. *)
Definition defaultJQL (project : string) : string :=
  "project = " +:+ project +:+
  " AND status not in (Cancelled,Rejected) AND created>=startOfYear(-1y) ORDER BY created DESC".

Definition buildJQL (j : JiraClient) : string :=
  let jql := defaultJQL (projectKey j) in
  if negb (String.eqb (queryFilter j) "")
  then jql +:+ " AND " +:+ queryFilter j
  else jql.

(** The [Fields] list of every page request. *)
Definition searchFields : list string :=
  [ "key"; "created"; "updated"; "resolutiondate"; "assignee";
    "customfield_22501"; "customfield_18117"; "customfield_21200";
    "customfield_20908"; "customfield_20905"; "customfield_18119";
    "customfield_33803"; "customfield_21501"; "customfield_24800";
    "customfield_20911"; "customfield_21201"; "reporter";
    "customfield_31207"; "customfield_31208"; "issuetype";
    "customfield_29800"; "customfield_28222"; "customfield_32112";
    "customfield_30304"; "customfield_37238" ].

(** The page size of [GetIssues]. *)
Definition maxResults : nat := 1000.

(** [j.client.Issue.Search(jql, options)] as seen by the caller: a chunk of
    issues, or an error. *)
Inductive SearchResult : Type :=
  | SearchOk (chunk : list jira.Issue)
  | SearchErr (err : error).

Definition Remote : Type := string → jira.SearchOptions → SearchResult.

(** The [for] loop of [GetIssues] may run for ever against a remote that
    keeps returning full pages; the embedding counts iterations down from
    [fuel]. A run-time panic (a nil pointer dereference, a ticker with a
    non-positive period) ends the run with [Panics]. *)
Inductive Outcome (A : Type) : Type :=
  | OutOfFuel
  | Panics
  | Returns (a : A).
Arguments OutOfFuel {A}.
Arguments Panics {A}.
Arguments Returns {A} a.

(** The inner loop over a chunk: append to [allIssues] and store in the
    cache, issue by issue. *)
Definition absorbChunk (chunk : list jira.Issue)
  (st : list jira.Issue * JiraClient) : list jira.Issue * JiraClient :=
  foldl (λ st issue, ((st.1 ++ [issue])%list, updateIssueCache issue st.2))
        st chunk.

(** The pagination loop of [GetIssues] for a page size [pageSize]
    (the local [maxResults]). [sent] records the page requests issued so
    far, oldest first. [startAt] is the length of [allIssues] throughout,
    so the Go [int] cannot wrap. *)
Fixpoint GetIssues_loop (fuel : nat) (search : Remote) (jql : string)
  (pageSize startAt : nat) (allIssues : list jira.Issue) (j : JiraClient)
  (sent : list jira.SearchOptions)
  : Outcome (JiraClient * list jira.SearchOptions
             * (list jira.Issue * option error)) :=
  match fuel with
  | O => OutOfFuel
  | S fuel' =>
      let options := jira.mkSearchOptions startAt pageSize searchFields in
      let sent := (sent ++ [options])%list in
      match search jql options with
      | SearchErr err =>
          Returns (j, sent,
                   ([], Some (ErrorWrap "error searching issues: " err)))
      | SearchOk chunk =>
          if (length chunk =? 0)%nat then
            Returns (j, sent, (allIssues, None))
          else
            let st := absorbChunk chunk (allIssues, j) in
            if (length chunk <? pageSize)%nat then
              Returns (st.2, sent, (st.1, None))
            else
              GetIssues_loop fuel' search jql pageSize
                (startAt + length chunk) st.1 st.2 sent
      end
  end.

(** [GetIssues]: the client after the call, the page requests it issued,
    and the returned pair. *)
Definition GetIssues (fuel : nat) (search : Remote) (j : JiraClient)
  : Outcome (JiraClient * list jira.SearchOptions
             * (list jira.Issue * option error)) :=
  GetIssues_loop fuel search (buildJQL j) maxResults 0 [] j [].

(** A JQL query is a filter expression followed by an optional
    [ORDER BY] clause; [jql_split] cuts the text at the first
    [" ORDER BY "]. *)
Definition orderByKeyword : string := " ORDER BY ".

Definition jql_split (jql : string) : string * option string :=
  match String.index 0 orderByKeyword jql with
  | Some n =>
      (String.substring 0 n jql,
       Some (String.substring (n + String.length orderByKeyword)
               (String.length jql - (n + String.length orderByKeyword)) jql))
  | None => (jql, None)
  end.

Definition jql_filter (jql : string) : string := (jql_split jql).1.
Definition jql_ordering (jql : string) : option string := (jql_split jql).2.

Section Refresh.

Variable time_Parse : string → string → option Time.

(** [RefreshData]. [now] is the value of [time.Now()] read at the
    assignment to [j.lastRefresh]. The issues of the retrieval are
    [jira.Issue]s, which carry their fields, so the conversion returns. *)
Definition RefreshData (fuel : nat) (search : Remote) (now : Time)
  (j : JiraClient) : Outcome (JiraClient * list jira.SearchOptions) :=
  match GetIssues fuel search j with
  | OutOfFuel => OutOfFuel
  | Panics => Panics
  | Returns (j, sent, (issues, Some err)) => Returns (j, sent)
  | Returns (j, sent, (issues, None)) =>
      match ConvertToCustomIssues time_Parse j issues with
      | (j, (customIssues, Some err)) => Returns (j, sent)
      | (j, (customIssues, None)) => Returns (set_lastRefresh now j, sent)
      end
  end.

(** One call of [RefreshData] made by the goroutine of
    [StartRefreshLoop]: how the remote answers during the call and what
    the clock shows at its commit. *)
Record Cycle : Type := mkCycle {
  remote : Remote;
  clock : Time
}.

(** The calls of [RefreshData] made by the goroutine of
    [StartRefreshLoop], the initial load first and then one per tick, run
    one after the other. The result lists the client after each call. *)
Fixpoint refreshCycles (fuel : nat) (cycles : list Cycle)
  (j : JiraClient) : Outcome (list JiraClient) :=
  match cycles with
  | [] => Returns []
  | c :: rest =>
      match RefreshData fuel (remote c) (clock c) j with
      | OutOfFuel => OutOfFuel
      | Panics => Panics
      | Returns (j', _) =>
          match refreshCycles fuel rest j' with
          | OutOfFuel => OutOfFuel
          | Panics => Panics
          | Returns js => Returns (j' :: js)
          end
      end
  end.

(** [time.Duration(j.refreshInterval) * time.Second]: a product of
    64-bit integers, in nanoseconds, with wrap-around. *)
Definition wrap64 (z : Z) : Z :=
  ((z + 2 ^ 63) mod 2 ^ 64 - 2 ^ 63)%Z.

Definition tickerPeriod (j : JiraClient) : Z :=
  wrap64 (refreshInterval j * 1000000000)%Z.

(** [StartRefreshLoop]: the goroutine first builds its ticker, and
    [time.NewTicker] panics on a period that is not positive; no call of
    [RefreshData] is made in that case. Otherwise it makes the calls of
    [refreshCycles]. The list [cycles] stands for the initial load and
    the ticks received before cancellation. *)
Definition StartRefreshLoop (fuel : nat) (cycles : list Cycle)
  (j : JiraClient) : Outcome (list JiraClient) :=
  if (tickerPeriod j <=? 0)%Z then Panics
  else refreshCycles fuel cycles j.

End Refresh.

(** ** The mapper on the pointers it receives *)

(** An element of the [[]*jira.Issue] handed to [ConvertToCustomIssues]:
    a nil pointer, an issue whose [Fields] pointer is nil (one decoded
    from JSON without a [fields] member), or an issue with its fields. *)
Inductive IssuePointer : Type :=
  | NilIssue
  | NilFields (id key : string)
  | WithFields (issue : jira.Issue).

Section PointerMapper.

Variable time_Parse : string → string → option Time.

(** The loop of [ConvertToCustomIssues] over pointers. Reading
    [issue.Key] through a nil pointer panics, and so does reading
    [issue.Fields.Assignee] through a nil [Fields]; the function has no
    test for either and no [recover]. *)
Fixpoint convertPointers (issues : list IssuePointer)
  (customIssues : list JiraIssue) : Outcome (list JiraIssue) :=
  match issues with
  | [] => Returns customIssues
  | NilIssue :: _ => Panics
  | NilFields _ _ :: _ => Panics
  | WithFields issue :: rest =>
      convertPointers rest
        (customIssues ++ [convertIssue time_Parse issue])%list
  end.

(** [ConvertToCustomIssues] on a slice of pointers. *)
Definition ConvertToCustomIssues_pointers (j : JiraClient)
  (issues : list IssuePointer)
  : Outcome (JiraClient * (list JiraIssue * option error)) :=
  match convertPointers issues [] with
  | OutOfFuel => OutOfFuel
  | Panics => Panics
  | Returns customIssues => Returns (j, (customIssues, None))
  end.

End PointerMapper.

(** * Vocabulary of the statements *)

(** ** Fields of the normalised record *)

Inductive OutField : Type :=
  | FKey | FCreated | FUpdated | FResolved | FAssignee | FClosed | FHead
  | FStarted | FFirefighting | FFixed | FSeverity | FService | FRootCause
  | FRegions | FRecovery | FReporter | FDetected | FEscalated | FMetrics
  | FIssueType | FEnvironment | FApplication | FBusinessProcess | FScore.

Inductive FieldVal : Type :=
  | TimeVal (t : Time)
  | StringVal (s : string)
  | IntVal (n : Z).

(** The content of one field of a record. *)
Definition field (f : OutField) (c : JiraIssue) : FieldVal :=
  match f with
  | FKey => StringVal (Key c)
  | FCreated => TimeVal (Created c)
  | FUpdated => TimeVal (Updated c)
  | FResolved => TimeVal (Resolved c)
  | FAssignee => StringVal (Assignee c)
  | FClosed => TimeVal (Closed c)
  | FHead => StringVal (Head c)
  | FStarted => TimeVal (Started c)
  | FFirefighting => TimeVal (Firefighting c)
  | FFixed => TimeVal (Fixed c)
  | FSeverity => StringVal (Severity c)
  | FService => StringVal (Service c)
  | FRootCause => StringVal (RootCause c)
  | FRegions => StringVal (Regions c)
  | FRecovery => StringVal (Recovery c)
  | FReporter => StringVal (Reporter c)
  | FDetected => TimeVal (Detected c)
  | FEscalated => TimeVal (Escalated c)
  | FMetrics => StringVal (Metrics c)
  | FIssueType => StringVal (IssueType c)
  | FEnvironment => StringVal (Environment c)
  | FApplication => StringVal (Application c)
  | FBusinessProcess => StringVal (BusinessProcess c)
  | FScore => IntVal (Score c)
  end.

(** A field is absent when it holds the zero value of its type. *)
Definition absent (f : OutField) : FieldVal := field f (newJiraIssue "").

(** ** The custom-field table of the specification *)

(** The four value shapes of the specification's mapping rules. *)
Inductive Shape : Type :=
  | TimestampString
  | NameObject
  | ValueObject
  | StringArrayFirst.

Record TableRow : Type := mkRow {
  vendorField : string;
  outputField : OutField;
  valueShape : Shape
}.

(** The table of the specification, row by row, with the vendor
    identifier that the code's comments give for each role. *)
Definition spec_customFieldTable : list TableRow :=
  [ mkRow "customfield_20908" FClosed TimestampString;
    mkRow "customfield_22501" FHead NameObject;
    mkRow "customfield_18117" FStarted TimestampString;
    mkRow "customfield_21200" FFirefighting TimestampString;
    mkRow "customfield_18119" FSeverity ValueObject;
    mkRow "customfield_33803" FService StringArrayFirst;
    mkRow "customfield_37238" FRootCause StringArrayFirst ].

(** The output field fed by a vendor identifier, if the table has it. *)
Definition spec_target (vendor : string) : option OutField :=
  outputField <$>
    List.find (λ row, String.eqb (vendorField row) vendor)
              spec_customFieldTable.

(** The name that the mapper takes from an identity object, and the one
    the specification speaks of. *)
Definition identity_name (o : option jira.User) : string :=
  match o with
  | Some u => jira.Name u
  | None => ""
  end.

Definition identity_display_name (o : option jira.User) : string :=
  match o with
  | Some u => jira.DisplayName u
  | None => ""
  end.

Section SpecExtract.

Variable time_Parse : string → string → option Time.

(** What a raw value yields under a shape, in the specification's words:
    (a) a bare string parsed with the fixed format, (b) an object
    exposing a [name] property, (c) an object exposing a [value]
    property, (d) a non-empty array whose first element is a string.
    [None] when the value is absent, does not have the shape, or does not
    parse. *)
Definition spec_extract (shape : Shape) (raw : option jira.Value)
  : option FieldVal :=
  match shape, raw with
  | TimestampString, Some (jira.VString s) =>
      TimeVal <$> time_Parse timeLayout s
  | NameObject, Some (jira.VObject members) =>
      match members !! "name" with
      | Some (jira.VString s) => Some (StringVal s)
      | _ => None
      end
  | ValueObject, Some (jira.VObject members) =>
      match members !! "value" with
      | Some (jira.VString s) => Some (StringVal s)
      | _ => None
      end
  | StringArrayFirst, Some (jira.VArray (jira.VString s :: _)) =>
      Some (StringVal s)
  | _, _ => None
  end.

(** ** The option computed by each rule of the code *)

(** The three kinds of guarded reads in [convertIssue], each returning
    the value that the rule assigns, if it assigns one. *)
Definition readTimestamp (raw : option jira.Value) : option Time :=
  match as_string raw with
  | Some val =>
      if negb (String.eqb val "") then time_Parse timeLayout val else None
  | None => None
  end.

Definition readProperty (prop : string) (raw : option jira.Value)
  : option string :=
  match as_object raw with
  | Some val => as_string (val !! prop)
  | None => None
  end.

Definition readFirstString (raw : option jira.Value) : option string :=
  match as_array raw with
  | Some val =>
      if (0 <? length val)%nat then as_string (val !! 0%nat) else None
  | None => None
  end.

(** The guarded assignments of [convertIssue] as functions of the record
    under construction, one per shape of guard. *)
Definition stepTimestamp (vendor : string)
  (set : Time → JiraIssue → JiraIssue) (u : gmap string jira.Value)
  (c : JiraIssue) : JiraIssue :=
  match as_string (u !! vendor) with
  | Some val =>
      if negb (String.eqb val "") then
        match time_Parse timeLayout val with
        | Some t => set t c
        | None => c
        end
      else c
  | None => c
  end.

Definition stepProperty (vendor prop : string)
  (set : string → JiraIssue → JiraIssue) (u : gmap string jira.Value)
  (c : JiraIssue) : JiraIssue :=
  match as_object (u !! vendor) with
  | Some val =>
      match as_string (val !! prop) with
      | Some s => set s c
      | None => c
      end
  | None => c
  end.

Definition stepFirstString (vendor : string)
  (set : string → JiraIssue → JiraIssue) (u : gmap string jira.Value)
  (c : JiraIssue) : JiraIssue :=
  match as_array (u !! vendor) with
  | Some val =>
      if (0 <? length val)%nat then
        match as_string (val !! 0%nat) with
        | Some s => set s c
        | None => c
        end
      else c
  | None => c
  end.

Definition stepIdentity (o : option jira.User)
  (set : string → JiraIssue → JiraIssue) (c : JiraIssue) : JiraIssue :=
  match o with
  | Some u => set (jira.Name u) c
  | None => c
  end.

Definition stepResolved (r : Time) (c : JiraIssue) : JiraIssue :=
  if negb (IsZero r) then set_Resolved r c else c.

Definition stepIssueType (n : string) (c : JiraIssue) : JiraIssue :=
  if negb (String.eqb n "") then set_IssueType n c else c.

(** The record that [convertIssue] builds, field by field. *)
Definition convertIssue_fields (issue : jira.Issue) : JiraIssue :=
  let f := jira.Fields issue in
  let u := jira.Unknowns f in
  {| Key := jira.Key issue;
     Created := jira.Created f;
     Updated := jira.Updated f;
     Resolved := jira.Resolutiondate f;
     Assignee := identity_name (jira.Assignee f);
     Closed := default zeroTime (readTimestamp (u !! "customfield_20908"));
     Head := default "" (readProperty "name" (u !! "customfield_22501"));
     Started := default zeroTime (readTimestamp (u !! "customfield_18117"));
     Firefighting :=
       default zeroTime (readTimestamp (u !! "customfield_21200"));
     Fixed := zeroTime;
     Severity := default "" (readProperty "value" (u !! "customfield_18119"));
     Service := default "" (readFirstString (u !! "customfield_33803"));
     RootCause := default "" (readFirstString (u !! "customfield_37238"));
     Regions := "";
     Recovery := "";
     Reporter := identity_name (jira.Reporter f);
     Detected := zeroTime;
     Escalated := zeroTime;
     Metrics := "";
     IssueType := jira.TypeName (jira.Type_ f);
     Environment := "";
     Application := "";
     BusinessProcess := "";
     Score := 0%Z |}.

End SpecExtract.

(** [assign o set c]: perform the assignment [set v c] when the guard
    produced a value [v]. *)
Definition assign {A : Type} (o : option A)
  (set : A → JiraIssue → JiraIssue) (c : JiraIssue) : JiraIssue :=
  match o with
  | Some v => set v c
  | None => c
  end.

(** An issue with another [Unknowns] map and everything else unchanged. *)
Definition with_unknowns (u : gmap string jira.Value) (issue : jira.Issue)
  : jira.Issue :=
  let f := jira.Fields issue in
  jira.mkIssue (jira.ID issue) (jira.Key issue)
    (jira.mkIssueFields (jira.Type_ f) (jira.Resolutiondate f)
       (jira.Created f) (jira.Updated f) (jira.Assignee f)
       (jira.Reporter f) u).

(** The rule for assignee and reporter as the specification words it:
    the display name of the identity object, and empty exactly when the
    object is absent. *)
Definition display_name_rule (issue : jira.Issue) (out : JiraIssue) : Prop :=
  Assignee out = identity_display_name (jira.Assignee (jira.Fields issue))
  ∧ Reporter out = identity_display_name (jira.Reporter (jira.Fields issue))
  ∧ (Assignee out = "" ↔ jira.Assignee (jira.Fields issue) = None)
  ∧ (Reporter out = "" ↔ jira.Reporter (jira.Fields issue) = None).

(** The fields that no rule of the mapper writes. *)
Definition unmapped_fields_zero (c : JiraIssue) : Prop :=
  Fixed c = zeroTime ∧ Regions c = "" ∧ Recovery c = ""
  ∧ Detected c = zeroTime ∧ Escalated c = zeroTime ∧ Metrics c = ""
  ∧ Environment c = "" ∧ Application c = "" ∧ BusinessProcess c = ""
  ∧ Score c = 0%Z.

(** The raw issue of the specification's scenario, around arbitrary other
    content: key [INCI-1], zero resolution date, severity
    [{"value":"SEV2"}] and service [["payments"]]. *)
Definition scenario_issue (id : string) (type : jira.IssueType)
  (created updated : Time) (assignee reporter : option jira.User)
  (others : gmap string jira.Value) : jira.Issue :=
  jira.mkIssue id "INCI-1"
    (jira.mkIssueFields type zeroTime created updated assignee reporter
       (<["customfield_18119" :=
            jira.VObject {[ "value" := jira.VString "SEV2" ]}]>
          (<["customfield_33803" :=
               jira.VArray [jira.VString "payments"]]> others))).

(** ** Sample data *)

(** A stand-in for [time.Parse] that knows two timestamps and rejects
    every other text, the empty one included. *)
Definition sample_Parse (layout value : string) : option Time :=
  if String.eqb value "2024-03-01T10:00:00.000+0000" then Some 1000%Z
  else if String.eqb value "2024-03-01T11:30:00.000+0000" then Some 2000%Z
  else None.

Definition sample_fields : jira.IssueFields :=
  jira.mkIssueFields (jira.mkIssueType "Incident") 0%Z 900%Z 950%Z
    (Some (jira.mkUser "asmith" "Alice Smith")) None
    {[ "customfield_18119" := jira.VObject {[ "value" := jira.VString "SEV2" ]};
       "customfield_33803" := jira.VArray [jira.VString "payments"];
       "customfield_20908" := jira.VString "2024-03-01T11:30:00.000+0000";
       "customfield_18117" := jira.VString "not a time" ]}.

Definition sample_issue : jira.Issue :=
  jira.mkIssue "10001" "INCI-1" sample_fields.

(** An issue as a cloud instance sends it: the identity objects carry a
    display name and no login name. *)
Definition cloud_issue : jira.Issue :=
  jira.mkIssue "10002" "INCI-2"
    (jira.mkIssueFields (jira.mkIssueType "Incident") 0%Z 900%Z 950%Z
       (Some (jira.mkUser "" "Alice Smith"))
       (Some (jira.mkUser "" "Bob Jones")) ∅).

(** ** Vocabulary of the query engine *)

(** The options of the page request at offset [startAt]. *)
Definition pageRequest (pageSize startAt : nat) : jira.SearchOptions :=
  jira.mkSearchOptions startAt pageSize searchFields.

(** The error returned by [GetIssues] for a failed page request. *)
Definition searchError (cause : error) : error :=
  ErrorWrap "error searching issues: " cause.

(** Storing a list of issues in the cache, in order. *)
Definition cacheAll (issues : list jira.Issue)
  (cache : gmap string jira.Issue) : gmap string jira.Issue :=
  foldl (λ m issue, <[jira.ID issue := issue]> m) cache issues.

Definition storeAll (issues : list jira.Issue) (j : JiraClient)
  : JiraClient :=
  foldl (λ j issue, updateIssueCache issue j) j issues.

(** The course of a paginated retrieval against a remote, from the offset
    [startAt] on: the page requests issued, the issues fetched and the
    cause of failure if a request failed. A request that fails ends the
    retrieval; so does an empty page, and a page shorter than the page
    size; a page of at least the page size is followed by the request at
    the offset advanced by its length. *)
Inductive pages (search : Remote) (jql : string) (pageSize : nat)
  : nat → list jira.SearchOptions → list jira.Issue → option error → Prop :=
  | pages_failed startAt cause :
      search jql (pageRequest pageSize startAt) = SearchErr cause →
      pages search jql pageSize startAt
        [pageRequest pageSize startAt] [] (Some cause)
  | pages_empty startAt :
      search jql (pageRequest pageSize startAt) = SearchOk [] →
      pages search jql pageSize startAt
        [pageRequest pageSize startAt] [] None
  | pages_short startAt chunk :
      search jql (pageRequest pageSize startAt) = SearchOk chunk →
      (0 < length chunk < pageSize)%nat →
      pages search jql pageSize startAt
        [pageRequest pageSize startAt] chunk None
  | pages_full startAt chunk requests fetched failure :
      search jql (pageRequest pageSize startAt) = SearchOk chunk →
      (0 < length chunk)%nat → (pageSize ≤ length chunk)%nat →
      pages search jql pageSize (startAt + length chunk)
        requests fetched failure →
      pages search jql pageSize startAt
        (pageRequest pageSize startAt :: requests)
        (chunk ++ fetched)%list failure.

(** What [GetIssues] returns after such a course, having started with
    [allIssues] already gathered. *)
Definition retrieved (allIssues fetched : list jira.Issue)
  (failure : option error) : list jira.Issue * option error :=
  match failure with
  | None => ((allIssues ++ fetched)%list, None)
  | Some cause => ([], Some (searchError cause))
  end.

(** A remote that holds the result set [db] and serves the window asked
    for: at most [MaxResults] issues from offset [StartAt], in order. *)
Definition paged_remote (db : list jira.Issue) : Remote :=
  λ _ options,
    SearchOk (take (jira.MaxResults options)
                (drop (jira.StartAt options) db)).

(** The requests of a retrieval of [count] pages of size [pageSize]. *)
Definition pageRequests (pageSize count : nat) : list jira.SearchOptions :=
  (λ k, pageRequest pageSize (k * pageSize)) <$> seq 0 count.

(** Issues with nothing but an identifier and a key. *)
Definition plain_issue (id key : string) : jira.Issue :=
  jira.mkIssue id key
    (jira.mkIssueFields (jira.mkIssueType "Incident") 0%Z 0%Z 0%Z
       None None ∅).

Definition numbered_issue (n : nat) : jira.Issue :=
  plain_issue (pretty (10000 + N.of_nat n)%N) ("INCI-" +:+ pretty n).

Definition sample_client : JiraClient :=
  NewJiraClient "https://jira.example" "bot" "INCI" "" 300.

(** A page of exactly [maxResults] issues, numbered from 1. *)
Definition full_page : list jira.Issue := numbered_issue <$> seq 1 maxResults.

(** A remote that serves [full_page] at offset 0 and fails every other
    request. *)
Definition second_page_fails : Remote :=
  λ _ options,
    if (jira.StartAt options =? 0)%nat then SearchOk full_page
    else SearchErr (ErrorNew "503 Service Unavailable").

(** A client whose cache holds issue 9 from an earlier cycle, refreshed
    at time 4000. *)
Definition stale_client : JiraClient :=
  set_lastRefresh 4000%Z (updateIssueCache (numbered_issue 9) sample_client).

Section RefreshStatements.

Variable time_Parse : string → string → option Time.

(** A failed refresh as the specification words it: the retrieval returns
    no issues and an error wrapping the cause, and the refresh leaves the
    cached mapping and [lastRefresh] as they were. *)
Definition refresh_all_or_nothing (fuel : nat) (search : Remote)
  (now : Time) (j : JiraClient) : Prop :=
  ∀ j' sent issues err,
    GetIssues fuel search j = Returns (j', sent, (issues, Some err)) →
    issues = []
    ∧ (∃ cause, err = searchError cause)
    ∧ ∃ j_end sent_end,
        RefreshData time_Parse fuel search now j = Returns (j_end, sent_end)
        ∧ issueCache j_end = issueCache j
        ∧ lastRefresh j_end = lastRefresh j.

(** A successful refresh as the specification words it: afterwards the
    cached mapping holds the issues returned by the retrieval, keyed by
    identifier, and nothing else. *)
Definition cache_replaced_wholesale (fuel : nat) (search : Remote)
  (now : Time) (j : JiraClient) : Prop :=
  ∀ j' sent issues,
    GetIssues fuel search j = Returns (j', sent, (issues, None)) →
    ∃ j_end sent_end,
      RefreshData time_Parse fuel search now j = Returns (j_end, sent_end)
      ∧ issueCache j_end = cacheAll issues ∅.

(** The values of [lastRefresh] recorded by the successful cycles of a
    run of [StartRefreshLoop], in order. A cycle is successful when its
    retrieval returns a nil error. *)
Fixpoint recorded (fuel : nat) (cycles : list Cycle) (j : JiraClient)
  : list Time :=
  match cycles with
  | [] => []
  | c :: rest =>
      match GetIssues fuel (remote c) j,
            RefreshData time_Parse fuel (remote c) (clock c) j with
      | Returns (_, _, (_, None)), Returns (j', _) =>
          lastRefresh j' :: recorded fuel rest j'
      | Returns _, Returns (j', _) => recorded fuel rest j'
      | _, _ => []
      end
  end.

End RefreshStatements.

(** A client configured with an extra filter clause. *)
Definition filtered_client : JiraClient :=
  NewJiraClient "https://jira.example" "bot" "INCI" "priority = High" 300.

(** Three cycles: a successful one, one whose second page fails, and
    another successful one. *)
Definition sample_cycles : list Cycle :=
  [ mkCycle (paged_remote [numbered_issue 1]) 5000%Z;
    mkCycle second_page_fails 5300%Z;
    mkCycle (paged_remote [numbered_issue 1; numbered_issue 2]) 5600%Z ].

(** ** Further vocabulary *)

(** [GetLastRefreshTime]: a read of [j.lastRefresh] under the read lock. *)
Definition GetLastRefreshTime (j : JiraClient) : Time := lastRefresh j.

(** A remote that answers every request with a page of exactly the size
    asked for. *)
Definition endless_remote : Remote :=
  λ _ options,
    SearchOk (replicate (jira.MaxResults options) (numbered_issue 1)).

(** A remote that holds [db] and never serves more than [cap] issues per
    page, whatever size is asked for. *)
Definition capped_remote (cap : nat) (db : list jira.Issue) : Remote :=
  λ _ options,
    SearchOk (take (cap `min` jira.MaxResults options)
                (drop (jira.StartAt options) db)).

(** A parser that differs from [sample_Parse] on the empty string only. *)
Definition lenient_Parse (layout value : string) : option Time :=
  if String.eqb value "" then Some 7%Z else sample_Parse layout value.

(** What [GetIssues] returns against [second_page_fails]. *)
Definition second_page_outcome
  : JiraClient * list jira.SearchOptions * (list jira.Issue * option error) :=
  (storeAll (full_page ++ []) sample_client,
   [pageRequest maxResults 0; pageRequest maxResults 1000],
   ([], Some (searchError (ErrorNew "503 Service Unavailable")))).

(** A result set of 250 issues. *)
Definition sample_db : list jira.Issue := numbered_issue <$> seq 1 250.

(** A remote that fails every request. *)
Definition failing_remote : Remote :=
  λ _ _, SearchErr (ErrorNew "connection refused").

(** Three cycles from [stale_client], the second of which fails at its
    first request, and the client after each of them. *)
Definition short_cycles : list Cycle :=
  [ mkCycle (paged_remote [numbered_issue 1]) 5000%Z;
    mkCycle failing_remote 5300%Z;
    mkCycle (paged_remote [numbered_issue 2]) 5600%Z ].

Definition short_states : list JiraClient :=
  let j1 := set_lastRefresh 5000%Z
              (storeAll [numbered_issue 1] stale_client) in
  let j3 := set_lastRefresh 5600%Z (storeAll [numbered_issue 2] j1) in
  [j1; j1; j3].

Section SuccessClocks.

Variable time_Parse : string → string → option Time.

(** The clock readings of the successful cycles of a run, in order: the
    reading of a cycle is listed when its retrieval returns a nil
    error. *)
Fixpoint success_clocks (fuel : nat) (cycles : list Cycle) (j : JiraClient)
  : list Time :=
  match cycles with
  | [] => []
  | c :: rest =>
      match GetIssues fuel (remote c) j,
            RefreshData time_Parse fuel (remote c) (clock c) j with
      | Returns (_, _, (_, None)), Returns (j', _) =>
          clock c :: success_clocks fuel rest j'
      | Returns _, Returns (j', _) => success_clocks fuel rest j'
      | _, _ => []
      end
  end.

End SuccessClocks.

(** A result set of five issues. *)
Definition five_issues : list jira.Issue := numbered_issue <$> seq 1 5.

(** * Properties *)

(** ** The field mapper *)

Section MapperFacts.

Variable time_Parse : string → string → option Time.

Abbreviation convert := (convertIssue time_Parse).

(** [convertIssue] is the chain of its guarded assignments. *)
Lemma convertIssue_steps (issue : jira.Issue) :
  convert issue =
  let f := jira.Fields issue in
  let u := jira.Unknowns f in
  stepFirstString "customfield_37238" set_RootCause u
    (stepFirstString "customfield_33803" set_Service u
      (stepProperty "customfield_18119" "value" set_Severity u
        (stepTimestamp time_Parse "customfield_21200" set_Firefighting u
          (stepTimestamp time_Parse "customfield_18117" set_Started u
            (stepProperty "customfield_22501" "name" set_Head u
              (stepTimestamp time_Parse "customfield_20908" set_Closed u
                (stepIssueType (jira.TypeName (jira.Type_ f))
                  (stepResolved (jira.Resolutiondate f)
                    (set_Updated (jira.Updated f)
                      (set_Created (jira.Created f)
                        (stepIdentity (jira.Reporter f) set_Reporter
                          (stepIdentity (jira.Assignee f) set_Assignee
                            (newJiraIssue (jira.Key issue)))))))))))))).
Proof. reflexivity. Qed.

Lemma stepTimestamp_assign vendor set u c :
  stepTimestamp time_Parse vendor set u c
  = assign (readTimestamp time_Parse (u !! vendor)) set c.
Proof.
  unfold stepTimestamp, readTimestamp, assign.
  destruct (as_string (u !! vendor)) as [val|]; [|reflexivity].
  destruct (negb (String.eqb val "")); [|reflexivity].
  destruct (time_Parse timeLayout val); reflexivity.
Qed.

Lemma stepProperty_assign vendor prop set u c :
  stepProperty vendor prop set u c
  = assign (readProperty prop (u !! vendor)) set c.
Proof.
  unfold stepProperty, readProperty, assign.
  destruct (as_object (u !! vendor)) as [val|]; [|reflexivity].
  destruct (as_string (val !! prop)); reflexivity.
Qed.

Lemma stepFirstString_assign vendor set u c :
  stepFirstString vendor set u c
  = assign (readFirstString (u !! vendor)) set c.
Proof.
  unfold stepFirstString, readFirstString, assign.
  destruct (as_array (u !! vendor)) as [val|]; [|reflexivity].
  destruct (0 <? length val)%nat; [|reflexivity].
  destruct (as_string (val !! 0%nat)); reflexivity.
Qed.

(** The record built by [convertIssue], in closed form. *)
Lemma convertIssue_closed_form (issue : jira.Issue) :
  convert issue = convertIssue_fields time_Parse issue.
Proof.
  rewrite convertIssue_steps. cbv zeta.
  rewrite !stepTimestamp_assign, !stepProperty_assign,
    !stepFirstString_assign.
  unfold convertIssue_fields.
  generalize (readFirstString (jira.Unknowns (jira.Fields issue) !! "customfield_37238")).
  generalize (readFirstString (jira.Unknowns (jira.Fields issue) !! "customfield_33803")).
  generalize (readProperty "value" (jira.Unknowns (jira.Fields issue) !! "customfield_18119")).
  generalize (readProperty "name" (jira.Unknowns (jira.Fields issue) !! "customfield_22501")).
  generalize (readTimestamp time_Parse (jira.Unknowns (jira.Fields issue) !! "customfield_21200")).
  generalize (readTimestamp time_Parse (jira.Unknowns (jira.Fields issue) !! "customfield_18117")).
  generalize (readTimestamp time_Parse (jira.Unknowns (jira.Fields issue) !! "customfield_20908")).
  intros o1 o2 o3 o4 o5 o6 o7.
  unfold stepIssueType, stepResolved, stepIdentity, IsZero.
  destruct (Z.eqb_spec (jira.Resolutiondate (jira.Fields issue)) 0) as [Hr|_];
    [rewrite Hr|];
  (destruct (String.eqb_spec (jira.TypeName (jira.Type_ (jira.Fields issue))) "")
     as [Hn|_]; [rewrite Hn|]);
  destruct (jira.Assignee (jira.Fields issue)),
    (jira.Reporter (jira.Fields issue)), o1, o2, o3, o4, o5, o6, o7;
  reflexivity.
Qed.

Lemma convert_loop_map (acc : list JiraIssue) (issues : list jira.Issue) :
  foldl (λ acc issue, (acc ++ [convert issue])%list) acc issues
  = (acc ++ map convert issues)%list.
Proof.
  revert acc. induction issues as [|issue issues IH]; intros acc; simpl.
  - symmetry. apply app_nil_r.
  - rewrite IH, <- app_assoc. reflexivity.
Qed.

(** The batch function maps [convertIssue] over its input, returns a nil
    error and hands the receiver back untouched. *)
Lemma ConvertToCustomIssues_map (j : JiraClient) (issues : list jira.Issue) :
  ConvertToCustomIssues time_Parse j issues
  = (j, (map convert issues, None)).
Proof.
  unfold ConvertToCustomIssues. rewrite convert_loop_map. reflexivity.
Qed.

(** C5, as amended. For every raw issue the mapper sets assignee and
    reporter to the [Name] of the corresponding identity object (not its
    [DisplayName]) and to the empty string when the identity object is
    absent. *)
Theorem C5_identity_name (issue : jira.Issue) :
  Assignee (convert issue)
  = match jira.Assignee (jira.Fields issue) with
    | Some u => jira.Name u
    | None => ""
    end
  ∧ Reporter (convert issue)
    = match jira.Reporter (jira.Fields issue) with
      | Some u => jira.Name u
      | None => ""
      end.
Proof. rewrite convertIssue_closed_form. split; reflexivity. Qed.

(** C10. Every record produced by the mapper has Fixed, Regions,
    Recovery, Detected, Escalated, Metrics, Environment, Application,
    BusinessProcess and Score at their zero values. *)
Theorem C10_unmapped_fields (j : JiraClient) (issues : list jira.Issue) :
  Forall unmapped_fields_zero
    (ConvertToCustomIssues time_Parse j issues).2.1.
Proof.
  rewrite ConvertToCustomIssues_map. simpl.
  apply Forall_forall. intros c Hc.
  apply list_elem_of_In, in_map_iff in Hc as (issue & <- & _).
  rewrite convertIssue_closed_form. unfold unmapped_fields_zero.
  simpl. repeat split; reflexivity.
Qed.

(** C8. The mapper is a function of the batch alone: it returns the
    receiver unchanged, its result does not depend on the receiver, a
    second application right after the first yields the same records,
    and each record is [convertIssue] of the issue at its position. *)
Theorem C8_mapper_pure (j j' : JiraClient) (issues : list jira.Issue) :
  let first := ConvertToCustomIssues time_Parse j issues in
  let second := ConvertToCustomIssues time_Parse first.1 issues in
  first.1 = j
  ∧ second.1 = j
  ∧ second.2 = first.2
  ∧ (ConvertToCustomIssues time_Parse j' issues).2 = first.2
  ∧ first.2.1 = map convert issues.
Proof.
  cbv zeta. rewrite !ConvertToCustomIssues_map. simpl.
  repeat split; reflexivity.
Qed.

(** A field of the closed form that a vendor identifier does not feed is
    blind to the value stored under that identifier. *)
Lemma field_frame (issue : jira.Issue) (vendor : string)
  (raw : option jira.Value) (f : OutField) :
  spec_target vendor ≠ Some f →
  field f (convert (with_unknowns
             (partial_alter (λ _, raw) vendor
                (jira.Unknowns (jira.Fields issue))) issue))
  = field f (convert issue).
Proof.
  intros Hf. rewrite !convertIssue_closed_form.
  destruct f; try reflexivity; simpl;
    match goal with
    | |- context [partial_alter _ vendor _ !! ?k] =>
        destruct (decide (vendor = k)) as [->|Hne];
        [ exfalso; apply Hf; reflexivity
        | rewrite (lookup_partial_alter_ne _ _ vendor k) by exact Hne;
          reflexivity ]
    end.
Qed.

(** A raw value from which the specification extracts nothing leaves the
    field of its table row absent. *)
Lemma field_absent_row :
  Forall (λ row, ∀ issue : jira.Issue,
            spec_extract time_Parse (valueShape row)
              (jira.Unknowns (jira.Fields issue) !! vendorField row) = None →
            field (outputField row) (convert issue)
            = absent (outputField row))
         spec_customFieldTable.
Proof.
  unfold spec_customFieldTable.
  repeat apply List.Forall_cons; try apply List.Forall_nil;
    intros issue; rewrite convertIssue_closed_form; simpl;
    unfold readTimestamp, readProperty, readFirstString;
    destruct (jira.Unknowns (jira.Fields issue) !! _)
      as [[| b | n | s | [|[| b | n | s | l' | m'] l] | m]|];
    simpl; try reflexivity.
  all: try (destruct (String.eqb s ""); simpl; [reflexivity|];
            destruct (time_Parse timeLayout s); simpl;
            [discriminate | reflexivity]).
  all: try discriminate.
  all: destruct (m !! _) as [[| b | n | s | l | m']|]; simpl;
    try reflexivity; discriminate.
Qed.

(** X15. On a batch of issues that carry their field block the mapper
    returns a nil error and one record per issue, the record at each
    position being [convertIssue] of the issue at that position alone; a
    custom field whose value is absent, of the wrong shape or unparseable
    leaves its output field absent; and replacing or removing the value
    under one vendor identifier changes no output field other than the
    one that identifier feeds. *)
Theorem X15_mapper_degrades_with_fields (j : JiraClient)
  (issues : list jira.Issue) :
  let result := (ConvertToCustomIssues time_Parse j issues).2 in
  result.2 = None
  ∧ length result.1 = length issues
  ∧ (∀ i : nat, result.1 !! i = convert <$> issues !! i)
  ∧ Forall (λ row, ∀ issue : jira.Issue,
              spec_extract time_Parse (valueShape row)
                (jira.Unknowns (jira.Fields issue) !! vendorField row)
              = None →
              field (outputField row) (convert issue)
              = absent (outputField row))
           spec_customFieldTable
  ∧ (∀ (issue : jira.Issue) (vendor : string) (raw : option jira.Value)
       (f : OutField),
       spec_target vendor ≠ Some f →
       field f (convert (with_unknowns
                  (partial_alter (λ _, raw) vendor
                     (jira.Unknowns (jira.Fields issue))) issue))
       = field f (convert issue)).
Proof.
  cbv zeta. rewrite ConvertToCustomIssues_map. simpl.
  split; [reflexivity|]. split; [apply length_map|].
  split; [intros i; apply list_lookup_fmap|].
  split; [exact field_absent_row | exact field_frame].
Qed.

(** C6. Provided [time.Parse] rejects the empty string under the fixed
    layout, every row of the specification's table holds of the mapper:
    the output field of the row is what the row's shape extracts from the
    value under the row's vendor identifier, and absent when it extracts
    nothing. The scenario issue maps to key [INCI-1], resolved absent,
    severity [SEV2] and service [payments]. *)
Theorem C6_custom_field_table
  (Hempty : time_Parse timeLayout "" = None) :
  Forall (λ row, ∀ issue : jira.Issue,
            field (outputField row) (convert issue)
            = default (absent (outputField row))
                (spec_extract time_Parse (valueShape row)
                   (jira.Unknowns (jira.Fields issue) !! vendorField row)))
         spec_customFieldTable
  ∧ (∀ id type created updated assignee reporter others,
       let out :=
         convert (scenario_issue id type created updated assignee reporter
                    others) in
       Key out = "INCI-1" ∧ Resolved out = zeroTime
       ∧ Severity out = "SEV2" ∧ Service out = "payments").
Proof.
  split.
  - unfold spec_customFieldTable.
    repeat apply List.Forall_cons; try apply List.Forall_nil;
      intros issue; rewrite convertIssue_closed_form; simpl;
      unfold readTimestamp, readProperty, readFirstString;
      destruct (jira.Unknowns (jira.Fields issue) !! _)
        as [[| b | n | s | [|[| b | n | s | l' | m'] l] | m]|];
      simpl; try reflexivity.
    all: try (destruct (String.eqb_spec s "") as [->|_]; simpl;
              [rewrite Hempty; reflexivity|];
              destruct (time_Parse timeLayout s); reflexivity).
    all: destruct (m !! _) as [[| b | n | s | l | m']|]; reflexivity.
  - intros. subst out. rewrite convertIssue_closed_form.
    unfold scenario_issue, convertIssue_fields. simpl.
    rewrite lookup_insert_eq.
    rewrite lookup_insert_ne by discriminate.
    rewrite lookup_insert_eq.
    repeat split; reflexivity.
Qed.

Lemma convertPointers_with_fields (issues : list jira.Issue)
  (customIssues : list JiraIssue) :
  convertPointers time_Parse (WithFields <$> issues) customIssues
  = Returns (customIssues ++ map convert issues)%list.
Proof.
  revert customIssues.
  induction issues as [|issue issues IH]; intros customIssues; simpl.
  - rewrite app_nil_r. reflexivity.
  - rewrite IH, <- app_assoc. reflexivity.
Qed.

Lemma convertPointers_nil_fields (before after : list IssuePointer)
  (id key : string) (customIssues : list JiraIssue) :
  convertPointers time_Parse (before ++ NilFields id key :: after)
    customIssues = Panics.
Proof.
  revert customIssues.
  induction before as [|[| id' key' | issue] before IH]; intros customIssues;
    simpl; try reflexivity.
  apply IH.
Qed.

(** C7, at a batch that holds an issue without a field block. The loop
    reads [issue.Fields.Assignee] with no nil test: on the batch of an
    issue decoded without [fields] followed by a well-formed issue the
    mapper panics and returns no record for either, and so it does on
    every batch that holds such an issue anywhere. On batches whose
    issues all carry their fields it returns, with a nil error and the
    records of [ConvertToCustomIssues]. *)
Theorem C7_nil_fields_panics (j : JiraClient) :
  ConvertToCustomIssues_pointers time_Parse j
    [NilFields "10003" "INCI-3"; WithFields sample_issue] = Panics
  ∧ (∀ before after id key,
       ConvertToCustomIssues_pointers time_Parse j
         (before ++ NilFields id key :: after) = Panics)
  ∧ (∀ issues,
       ConvertToCustomIssues_pointers time_Parse j (WithFields <$> issues)
       = Returns (ConvertToCustomIssues time_Parse j issues)).
Proof.
  split; [reflexivity|]. split.
  - intros before after id key. unfold ConvertToCustomIssues_pointers.
    rewrite convertPointers_nil_fields. reflexivity.
  - intros issues. unfold ConvertToCustomIssues_pointers.
    rewrite convertPointers_with_fields, ConvertToCustomIssues_map.
    reflexivity.
Qed.

End MapperFacts.

(** C5 as stated fails on an issue whose identity objects carry a display
    name and an empty login name: both outputs are empty, which is neither
    the display name nor a sign that the identity is absent. *)
Lemma C5_display_name_counterexample :
  ¬ display_name_rule cloud_issue (convertIssue sample_Parse cloud_issue).
Proof.
  unfold display_name_rule. intros (Ha & _). vm_compute in Ha. discriminate.
Qed.

Lemma C6_custom_field_table_witness :
  sample_Parse timeLayout "" = None
  ∧ Forall (λ row, ∀ issue : jira.Issue,
              field (outputField row) (convertIssue sample_Parse issue)
              = default (absent (outputField row))
                  (spec_extract sample_Parse (valueShape row)
                     (jira.Unknowns (jira.Fields issue) !! vendorField row)))
           spec_customFieldTable
  ∧ (∀ id type created updated assignee reporter others,
       let out :=
         convertIssue sample_Parse
           (scenario_issue id type created updated assignee reporter others)
       in
       Key out = "INCI-1" ∧ Resolved out = zeroTime
       ∧ Severity out = "SEV2" ∧ Service out = "payments").
Proof.
  split; [reflexivity|].
  apply (C6_custom_field_table sample_Parse). reflexivity.
Defined.

Lemma X15_mapper_degrades_with_fields_witness :
  (ConvertToCustomIssues sample_Parse
     (NewJiraClient "https://jira.example" "bot" "INCI" "" 300)
     [sample_issue; cloud_issue]).2.2 = None
  ∧ length (ConvertToCustomIssues sample_Parse
              (NewJiraClient "https://jira.example" "bot" "INCI" "" 300)
              [sample_issue; cloud_issue]).2.1 = 2%nat
  ∧ field FStarted (convertIssue sample_Parse sample_issue)
    = absent FStarted
  ∧ field FClosed
      (convertIssue sample_Parse
         (with_unknowns
            (partial_alter (λ _, None) "customfield_18117"
               (jira.Unknowns (jira.Fields sample_issue))) sample_issue))
    = field FClosed (convertIssue sample_Parse sample_issue).
Proof.
  destruct (X15_mapper_degrades_with_fields sample_Parse
              (NewJiraClient "https://jira.example" "bot" "INCI" "" 300)
              [sample_issue; cloud_issue])
    as (Herr & Hlen & _ & Hrows & Hframe).
  split; [exact Herr|]. split; [exact Hlen|]. split.
  - apply (proj1 (List.Forall_forall _ _) Hrows
             (mkRow "customfield_18117" FStarted TimestampString)).
    + simpl. tauto.
    + vm_compute. reflexivity.
  - apply Hframe. vm_compute. discriminate.
Defined.

(** ** The issue cache *)

Lemma storeAll_app (l1 l2 : list jira.Issue) (j : JiraClient) :
  storeAll (l1 ++ l2) j = storeAll l2 (storeAll l1 j).
Proof. unfold storeAll. apply foldl_app. Qed.

Lemma storeAll_cache (issues : list jira.Issue) (j : JiraClient) :
  storeAll issues j = set_issueCache (cacheAll issues (issueCache j)) j.
Proof.
  revert j. induction issues as [|i issues IH]; intros j.
  - destruct j; reflexivity.
  - change (storeAll (i :: issues) j)
      with (storeAll issues (updateIssueCache i j)).
    rewrite IH. destruct j; reflexivity.
Qed.

Lemma storeAll_lastRefresh (issues : list jira.Issue) (j : JiraClient) :
  lastRefresh (storeAll issues j) = lastRefresh j.
Proof. rewrite storeAll_cache. reflexivity. Qed.

Lemma storeAll_issueCache (issues : list jira.Issue) (j : JiraClient) :
  issueCache (storeAll issues j) = cacheAll issues (issueCache j).
Proof. rewrite storeAll_cache. reflexivity. Qed.

Lemma cacheAll_snoc (issues : list jira.Issue) (i : jira.Issue)
  (cache : gmap string jira.Issue) :
  cacheAll (issues ++ [i]) cache = <[jira.ID i := i]> (cacheAll issues cache).
Proof. unfold cacheAll. rewrite foldl_app. reflexivity. Qed.

(** An identifier that no stored issue bears keeps its entry. *)
Lemma cacheAll_other (issues : list jira.Issue)
  (cache : gmap string jira.Issue) (id : string) :
  id ∉ jira.ID <$> issues →
  cacheAll issues cache !! id = cache !! id.
Proof.
  induction issues as [|i issues IH] using rev_ind; intros Hid.
  - reflexivity.
  - rewrite cacheAll_snoc. rewrite fmap_app in Hid.
    rewrite lookup_insert_ne.
    + apply IH. intros Hin. apply Hid. apply elem_of_app. left. exact Hin.
    + intros Heq. apply Hid. apply elem_of_app. right. simpl.
      rewrite Heq. apply list_elem_of_here.
Qed.

(** Every stored issue leaves, under its identifier, a stored issue with
    that identifier. *)
Lemma cacheAll_stored (issues : list jira.Issue)
  (cache : gmap string jira.Issue) (i : jira.Issue) :
  i ∈ issues →
  ∃ i', i' ∈ issues ∧ jira.ID i' = jira.ID i
        ∧ cacheAll issues cache !! jira.ID i = Some i'.
Proof.
  induction issues as [|x issues IH] using rev_ind; intros Hi.
  - inversion Hi.
  - rewrite cacheAll_snoc.
    destruct (decide (jira.ID x = jira.ID i)) as [Heq|Hne].
    + exists x. split; [apply elem_of_app; right; apply list_elem_of_here|].
      split; [exact Heq|]. rewrite Heq. apply lookup_insert_eq.
    + apply elem_of_app in Hi as [Hi|Hi].
      * destruct (IH Hi) as (i' & Hin & Hid & Hl). exists i'.
        split; [apply elem_of_app; left; exact Hin|].
        split; [exact Hid|]. rewrite lookup_insert_ne by exact Hne. exact Hl.
      * apply list_elem_of_singleton in Hi. subst. contradiction.
Qed.

(** ** The pagination loop *)

Lemma absorbChunk_spec (chunk allIssues : list jira.Issue) (j : JiraClient) :
  absorbChunk chunk (allIssues, j)
  = ((allIssues ++ chunk)%list, storeAll chunk j).
Proof.
  revert allIssues j. induction chunk as [|i chunk IH]; intros allIssues j.
  - simpl. rewrite app_nil_r. reflexivity.
  - change (absorbChunk (i :: chunk) (allIssues, j))
      with (absorbChunk chunk
              ((allIssues ++ [i])%list, updateIssueCache i j)).
    rewrite IH. rewrite <- app_assoc. reflexivity.
Qed.

Section Pagination.

Variables (search : Remote) (jql : string) (pageSize : nat).

(** Whenever the loop returns, it has followed a course of [pages]. *)
Lemma GetIssues_loop_sound (fuel startAt : nat)
  (allIssues : list jira.Issue) (j : JiraClient)
  (sent : list jira.SearchOptions) out :
  GetIssues_loop fuel search jql pageSize startAt allIssues j sent
  = Returns out →
  ∃ requests fetched failure,
    pages search jql pageSize startAt requests fetched failure
    ∧ out = (storeAll fetched j, (sent ++ requests)%list,
             retrieved allIssues fetched failure).
Proof.
  revert startAt allIssues j sent.
  induction fuel as [|fuel IH]; intros startAt allIssues j sent; simpl.
  - discriminate.
  - fold (pageRequest pageSize startAt).
    destruct (search jql (pageRequest pageSize startAt))
      as [chunk|cause] eqn:Hpage.
    + destruct (Nat.eqb_spec (length chunk) 0) as [Hzero|Hpos].
      * intros [= <-]. apply length_zero_iff_nil in Hzero. subst chunk.
        exists [pageRequest pageSize startAt], [], None.
        split; [apply pages_empty; exact Hpage|].
        simpl. rewrite app_nil_r. reflexivity.
      * rewrite absorbChunk_spec. simpl.
        destruct (Nat.ltb_spec (length chunk) pageSize) as [Hshort|Hfull].
        -- intros [= <-].
           exists [pageRequest pageSize startAt], chunk, None.
           split; [apply pages_short; [exact Hpage|lia]|reflexivity].
        -- intros Hrun. apply IH in Hrun
             as (requests & fetched & failure & Hpages & ->).
           exists (pageRequest pageSize startAt :: requests),
             (chunk ++ fetched)%list, failure.
           split; [apply pages_full; [exact Hpage|lia|lia|exact Hpages]|].
           rewrite storeAll_app, <- !app_assoc. simpl.
           destruct failure; simpl; rewrite <- ?app_assoc; reflexivity.
    + intros [= <-].
      exists [pageRequest pageSize startAt], [], (Some cause).
      split; [apply pages_failed; exact Hpage|reflexivity].
Qed.

(** A course of [pages] is followed to its end by the loop as soon as the
    fuel covers its requests. *)
Lemma GetIssues_loop_complete (startAt : nat) requests fetched failure :
  pages search jql pageSize startAt requests fetched failure →
  ∀ (fuel : nat) (allIssues : list jira.Issue) (j : JiraClient)
    (sent : list jira.SearchOptions),
    (length requests ≤ fuel)%nat →
    GetIssues_loop fuel search jql pageSize startAt allIssues j sent
    = Returns (storeAll fetched j, (sent ++ requests)%list,
               retrieved allIssues fetched failure).
Proof.
  induction 1 as [startAt cause Hpage | startAt Hpage
                 | startAt chunk Hpage Hlen
                 | startAt chunk requests fetched failure Hpage Hpos Hfull
                     Hrest IH];
    intros fuel allIssues j sent Hfuel;
    (destruct fuel as [|fuel]; [simpl in Hfuel; lia|]);
    simpl; fold (pageRequest pageSize startAt); rewrite Hpage.
  - reflexivity.
  - simpl. rewrite app_nil_r. reflexivity.
  - destruct (Nat.eqb_spec (length chunk) 0) as [Hz|_]; [lia|].
    rewrite absorbChunk_spec. simpl.
    destruct (Nat.ltb_spec (length chunk) pageSize) as [_|Hge]; [|lia].
    reflexivity.
  - destruct (Nat.eqb_spec (length chunk) 0) as [Hz|_]; [lia|].
    rewrite absorbChunk_spec. simpl.
    destruct (Nat.ltb_spec (length chunk) pageSize) as [Hlt|_]; [lia|].
    rewrite IH by (simpl in Hfuel; lia).
    rewrite storeAll_app, <- !app_assoc. simpl.
    destruct failure; simpl; rewrite <- ?app_assoc; reflexivity.
Qed.

End Pagination.

(** Against a remote serving windows of [db], the retrieval from a page
    boundary runs through the remaining pages and fetches the rest of
    [db]. *)
Lemma paged_remote_pages (db : list jira.Issue) (jql : string)
  (pageSize : nat) :
  (0 < pageSize)%nat →
  ∀ count first : nat,
    ((first + count) * pageSize ≤ length db)%nat →
    (length db < (first + S count) * pageSize)%nat →
    pages (paged_remote db) jql pageSize (first * pageSize)
      ((λ k, pageRequest pageSize (k * pageSize)) <$> seq first (S count))
      (drop (first * pageSize) db) None.
Proof.
  intros Hsize. induction count as [|count IH]; intros first Hlow Hhigh.
  - assert (Hpage : paged_remote db jql (pageRequest pageSize (first * pageSize))
                    = SearchOk (drop (first * pageSize) db)).
    { unfold paged_remote. simpl. f_equal. apply take_ge.
      rewrite length_drop. lia. }
    simpl. destruct (drop (first * pageSize) db) as [|i rest] eqn:Hrest.
    + apply pages_empty. exact Hpage.
    + apply pages_short; [exact Hpage|].
      rewrite <- Hrest, length_drop. split; [|lia].
      assert (length (drop (first * pageSize) db) ≠ 0)%nat
        by (rewrite Hrest; discriminate).
      rewrite length_drop in *. lia.
  - set (chunk := take pageSize (drop (first * pageSize) db)).
    assert (Hlen : length chunk = pageSize).
    { unfold chunk. rewrite length_take, length_drop. lia. }
    assert (Hsplit : drop (first * pageSize) db
                     = (chunk ++ drop (S first * pageSize) db)%list).
    { unfold chunk.
      rewrite <- (take_drop pageSize (drop (first * pageSize) db)) at 1.
      rewrite drop_drop. do 2 f_equal. lia. }
    rewrite Hsplit.
    change ((λ k, pageRequest pageSize (k * pageSize)) <$> seq first (S (S count)))
      with (pageRequest pageSize (first * pageSize)
            :: ((λ k, pageRequest pageSize (k * pageSize))
                  <$> seq (S first) (S count))).
    apply pages_full.
    + reflexivity.
    + lia.
    + lia.
    + rewrite Hlen.
      replace (first * pageSize + pageSize)%nat with (S first * pageSize)%nat
        by lia.
      apply IH; lia.
Qed.

Lemma paged_remote_retrieval (db : list jira.Issue) (jql : string)
  (pageSize fuel : nat) (j : JiraClient) :
  (0 < pageSize)%nat →
  (length db / pageSize < fuel)%nat →
  GetIssues_loop fuel (paged_remote db) jql pageSize 0 [] j []
  = Returns (storeAll db j,
             pageRequests pageSize (length db / pageSize + 1), (db, None)).
Proof.
  intros Hsize Hfuel.
  pose proof (Nat.Div0.mul_div_le (length db) pageSize) as Hlow.
  pose proof (Nat.mul_succ_div_gt (length db) pageSize ltac:(lia)) as Hhigh.
  pose proof (paged_remote_pages db jql pageSize Hsize
                (length db / pageSize) 0 ltac:(lia) ltac:(lia)) as Hpages.
  rewrite (GetIssues_loop_complete _ _ _ _ _ _ _ Hpages).
  - unfold pageRequests. rewrite Nat.add_1_r. reflexivity.
  - rewrite length_fmap, length_seq. lia.
Qed.

(** C4. Every retrieval that returns has followed a course of [pages]
    from offset 0: each request is at the offset advanced by the lengths
    of the pages before it, and the requests stop exactly at a failed
    request, an empty page or a page shorter than the page size. Against
    a remote serving windows of a result set [db], with a positive page
    size and enough fuel, the retrieval returns [db] in order after
    [length db / pageSize + 1] requests at offsets [0, pageSize, ...];
    so does [GetIssues] with its page size of 1000. With page size 2 and
    five issues it returns the five issues after requests at offsets 0, 2
    and 4. *)
Theorem C4_pagination :
  (∀ fuel search jql pageSize j out,
     GetIssues_loop fuel search jql pageSize 0 [] j [] = Returns out →
     ∃ fetched failure,
       pages search jql pageSize 0 out.1.2 fetched failure
       ∧ out.2 = retrieved [] fetched failure)
  ∧ (∀ db jql pageSize fuel j,
       (0 < pageSize)%nat → (length db / pageSize < fuel)%nat →
       GetIssues_loop fuel (paged_remote db) jql pageSize 0 [] j []
       = Returns (storeAll db j,
                  pageRequests pageSize (length db / pageSize + 1),
                  (db, None)))
  ∧ (∀ db fuel j,
       (length db / maxResults < fuel)%nat →
       GetIssues fuel (paged_remote db) j
       = Returns (storeAll db j,
                  pageRequests maxResults (length db / maxResults + 1),
                  (db, None)))
  ∧ (∀ i1 i2 i3 i4 i5 jql j,
       ∃ j' sent,
         GetIssues_loop 3 (paged_remote [i1; i2; i3; i4; i5]) jql 2 0 [] j []
         = Returns (j', sent, ([i1; i2; i3; i4; i5], None))
         ∧ length sent = 3%nat
         ∧ jira.StartAt <$> sent = [0; 2; 4]%nat).
Proof.
  split; [|split; [|split]].
  - intros fuel search jql pageSize j out Hrun.
    apply GetIssues_loop_sound in Hrun
      as (requests & fetched & failure & Hpages & ->).
    exists fetched, failure. split; [exact Hpages|reflexivity].
  - intros db jql pageSize fuel j Hsize Hfuel.
    apply paged_remote_retrieval; assumption.
  - intros db fuel j Hfuel. unfold GetIssues.
    apply paged_remote_retrieval; [unfold maxResults; lia|exact Hfuel].
  - intros i1 i2 i3 i4 i5 jql j.
    exists (storeAll [i1; i2; i3; i4; i5] j), (pageRequests 2 3).
    split; [|split; reflexivity].
    apply (paged_remote_retrieval [i1; i2; i3; i4; i5] jql 2 3 j);
      [lia | simpl; lia].
Qed.

Lemma C4_pagination_witness :
  (0 < 2)%nat
  ∧ (length (numbered_issue <$> seq 1 5) / 2 < 3)%nat
  ∧ GetIssues_loop 3 (paged_remote (numbered_issue <$> seq 1 5))
      (buildJQL sample_client) 2 0 [] sample_client []
    = Returns (storeAll (numbered_issue <$> seq 1 5) sample_client,
               pageRequests 2 (length (numbered_issue <$> seq 1 5) / 2 + 1),
               (numbered_issue <$> seq 1 5, None)).
Proof.
  split; [lia|]. split; [simpl; lia|].
  apply (proj1 (proj2 C4_pagination)); [lia | simpl; lia].
Defined.

(** ** The refresh step *)

Section RefreshFacts.

Variable time_Parse : string → string → option Time.

(** [RefreshData] in terms of the outcome of its retrieval. *)
Lemma RefreshData_unfold (fuel : nat) (search : Remote) (now : Time)
  (j : JiraClient) :
  RefreshData time_Parse fuel search now j
  = match GetIssues fuel search j with
    | OutOfFuel => OutOfFuel
    | Panics => Panics
    | Returns (j', sent, (_, Some _)) => Returns (j', sent)
    | Returns (j', sent, (_, None)) => Returns (set_lastRefresh now j', sent)
    end.
Proof.
  unfold RefreshData.
  destruct (GetIssues fuel search j) as [| |[[j' sent] [issues [err|]]]];
    reflexivity.
Qed.

(** The refresh that goes with a course of [pages]. *)
Lemma RefreshData_pages (fuel : nat) (search : Remote) (now : Time)
  (j : JiraClient) requests fetched failure :
  pages search (buildJQL j) maxResults 0 requests fetched failure →
  (length requests ≤ fuel)%nat →
  GetIssues fuel search j
  = Returns (storeAll fetched j, requests, retrieved [] fetched failure)
  ∧ RefreshData time_Parse fuel search now j
    = Returns (match failure with
               | None => set_lastRefresh now (storeAll fetched j)
               | Some _ => storeAll fetched j
               end, requests).
Proof.
  intros Hpages Hfuel.
  assert (Hget : GetIssues fuel search j
                 = Returns (storeAll fetched j, requests,
                            retrieved [] fetched failure)).
  { unfold GetIssues.
    rewrite (GetIssues_loop_complete _ _ _ _ _ _ _ Hpages) by exact Hfuel.
    reflexivity. }
  split; [exact Hget|].
  rewrite RefreshData_unfold, Hget. destruct failure; reflexivity.
Qed.

Lemma pages_failed_first (search : Remote) (jql : string) (pageSize : nat)
  (startAt : nat) request fetched cause :
  pages search jql pageSize startAt [request] fetched (Some cause) →
  fetched = [].
Proof.
  intros Hpages. inversion Hpages as [| | | ? ? ? ? ? ? ? ? Hrest]; subst.
  - reflexivity.
  - inversion Hrest.
Qed.

(** C1, as amended. When a page request of a refresh cycle fails, the
    retrieval returns no issues and an error that wraps the cause and
    names it in its message, and the refresh leaves [lastRefresh] as it
    was. The issues of the pages fetched before the failure are in the
    cache by then: the cached mapping is the previous one with those
    issues stored under their identifiers, entries under other
    identifiers are unchanged, and the whole mapping is unchanged when
    the first request is the one that fails. *)
Theorem C1_failed_refresh (fuel : nat) (search : Remote) (now : Time)
  (j : JiraClient) requests fetched cause :
  pages search (buildJQL j) maxResults 0 requests fetched (Some cause) →
  (length requests ≤ fuel)%nat →
  ∃ j_end,
    GetIssues fuel search j
    = Returns (j_end, requests, ([], Some (searchError cause)))
    ∧ Unwrap (searchError cause) = Some cause
    ∧ Error (searchError cause) = "error searching issues: " +:+ Error cause
    ∧ RefreshData time_Parse fuel search now j = Returns (j_end, requests)
    ∧ lastRefresh j_end = lastRefresh j
    ∧ issueCache j_end = cacheAll fetched (issueCache j)
    ∧ (∀ id, id ∉ jira.ID <$> fetched →
             issueCache j_end !! id = issueCache j !! id)
    ∧ (length requests = 1%nat → issueCache j_end = issueCache j).
Proof.
  intros Hpages Hfuel.
  destruct (RefreshData_pages fuel search now j _ _ _ Hpages Hfuel)
    as [Hget Hrefresh].
  exists (storeAll fetched j).
  split; [exact Hget|]. split; [reflexivity|]. split; [reflexivity|].
  split; [exact Hrefresh|]. split; [apply storeAll_lastRefresh|].
  split; [apply storeAll_issueCache|]. split.
  - intros id Hid. rewrite storeAll_issueCache.
    apply cacheAll_other. exact Hid.
  - intros Hone. destruct requests as [|request [|]]; try discriminate.
    rewrite (pages_failed_first _ _ _ _ _ _ _ Hpages). reflexivity.
Qed.

(** C2, as amended. A successful refresh cycle stores every issue
    returned by its retrieval in the cache under the issue's identifier
    and records the refresh time: afterwards each returned identifier is
    bound to a returned issue with that identifier, and every entry of
    earlier cycles under an identifier that was not returned is still
    there. *)
Theorem C2_cache_merged (fuel : nat) (search : Remote) (now : Time)
  (j : JiraClient) requests fetched :
  pages search (buildJQL j) maxResults 0 requests fetched None →
  (length requests ≤ fuel)%nat →
  ∃ j_end,
    GetIssues fuel search j
    = Returns (storeAll fetched j, requests, (fetched, None))
    ∧ RefreshData time_Parse fuel search now j = Returns (j_end, requests)
    ∧ lastRefresh j_end = now
    ∧ issueCache j_end = cacheAll fetched (issueCache j)
    ∧ (∀ i, i ∈ fetched →
         ∃ i', i' ∈ fetched ∧ jira.ID i' = jira.ID i
               ∧ issueCache j_end !! jira.ID i = Some i')
    ∧ (∀ id, id ∉ jira.ID <$> fetched →
             issueCache j_end !! id = issueCache j !! id).
Proof.
  intros Hpages Hfuel.
  destruct (RefreshData_pages fuel search now j _ _ _ Hpages Hfuel)
    as [Hget Hrefresh].
  exists (set_lastRefresh now (storeAll fetched j)).
  split; [exact Hget|]. split; [exact Hrefresh|]. split; [reflexivity|].
  assert (Hcache : issueCache (set_lastRefresh now (storeAll fetched j))
                   = cacheAll fetched (issueCache j))
    by apply storeAll_issueCache.
  split; [exact Hcache|]. rewrite Hcache. split.
  - intros i Hi. apply cacheAll_stored. exact Hi.
  - intros id Hid. apply cacheAll_other. exact Hid.
Qed.

End RefreshFacts.

(** The course of the retrieval against [second_page_fails]. *)
Lemma second_page_fails_pages (jql : string) :
  pages second_page_fails jql maxResults 0
    [pageRequest maxResults 0; pageRequest maxResults 1000]
    (full_page ++ []) (Some (ErrorNew "503 Service Unavailable")).
Proof.
  apply pages_full.
  - reflexivity.
  - vm_compute. lia.
  - vm_compute. lia.
  - apply (pages_failed second_page_fails jql maxResults 1000). reflexivity.
Qed.

Lemma C1_failed_refresh_witness :
  pages second_page_fails (buildJQL sample_client) maxResults 0
    [pageRequest maxResults 0; pageRequest maxResults 1000]
    (full_page ++ []) (Some (ErrorNew "503 Service Unavailable"))
  ∧ (length [pageRequest maxResults 0; pageRequest maxResults 1000] ≤ 2)%nat
  ∧ ∃ j_end,
      GetIssues 2 second_page_fails sample_client
      = Returns (j_end,
                 [pageRequest maxResults 0; pageRequest maxResults 1000],
                 ([], Some (searchError (ErrorNew "503 Service Unavailable"))))
      ∧ Unwrap (searchError (ErrorNew "503 Service Unavailable"))
        = Some (ErrorNew "503 Service Unavailable")
      ∧ Error (searchError (ErrorNew "503 Service Unavailable"))
        = "error searching issues: "
          +:+ Error (ErrorNew "503 Service Unavailable")
      ∧ RefreshData sample_Parse 2 second_page_fails 5000%Z sample_client
        = Returns (j_end,
                   [pageRequest maxResults 0; pageRequest maxResults 1000])
      ∧ lastRefresh j_end = lastRefresh sample_client
      ∧ issueCache j_end
        = cacheAll (full_page ++ []) (issueCache sample_client)
      ∧ (∀ id, id ∉ jira.ID <$> (full_page ++ [])%list →
               issueCache j_end !! id = issueCache sample_client !! id)
      ∧ (length [pageRequest maxResults 0; pageRequest maxResults 1000]
         = 1%nat → issueCache j_end = issueCache sample_client).
Proof.
  split; [apply second_page_fails_pages|]. split; [simpl; lia|].
  apply (C1_failed_refresh sample_Parse 2 second_page_fails 5000%Z
           sample_client _ _ _ (second_page_fails_pages _)).
  simpl. lia.
Defined.

(** C1 as stated fails when the second page request fails after a full
    first page: the thousand issues of the first page are in the cache,
    which was empty before. *)
Lemma C1_all_or_nothing_counterexample :
  ¬ refresh_all_or_nothing sample_Parse 2 second_page_fails 5000%Z
      sample_client.
Proof.
  intros Hclaim.
  destruct (RefreshData_pages sample_Parse 2 second_page_fails 5000%Z
              sample_client _ _ _ (second_page_fails_pages _))
    as [Hget Hrefresh]; [simpl; lia|].
  destruct (Hclaim _ _ _ _ Hget)
    as (_ & _ & j_end & sent_end & Hend & Hcache & _).
  rewrite Hrefresh in Hend.
  apply (f_equal (λ o, match o with
                       | Returns (j0, _) => issueCache j0 !! "10001"
                       | _ => None
                       end)) in Hend.
  cbv beta iota in Hend. rewrite Hcache in Hend.
  vm_compute in Hend. discriminate.
Qed.

(** The course of a retrieval that finds one issue. *)
Lemma single_issue_pages (jql : string) :
  pages (paged_remote [numbered_issue 1]) jql maxResults 0
    [pageRequest maxResults 0] [numbered_issue 1] None.
Proof. apply pages_short; [reflexivity | vm_compute; lia]. Qed.

Lemma C2_cache_merged_witness :
  pages (paged_remote [numbered_issue 1]) (buildJQL stale_client)
    maxResults 0 [pageRequest maxResults 0] [numbered_issue 1] None
  ∧ (length [pageRequest maxResults 0] ≤ 1)%nat
  ∧ ∃ j_end,
      GetIssues 1 (paged_remote [numbered_issue 1]) stale_client
      = Returns (storeAll [numbered_issue 1] stale_client,
                 [pageRequest maxResults 0], ([numbered_issue 1], None))
      ∧ RefreshData sample_Parse 1 (paged_remote [numbered_issue 1])
          5000%Z stale_client
        = Returns (j_end, [pageRequest maxResults 0])
      ∧ lastRefresh j_end = 5000%Z
      ∧ issueCache j_end
        = cacheAll [numbered_issue 1] (issueCache stale_client)
      ∧ (∀ i, i ∈ [numbered_issue 1] →
           ∃ i', i' ∈ [numbered_issue 1] ∧ jira.ID i' = jira.ID i
                 ∧ issueCache j_end !! jira.ID i = Some i')
      ∧ (∀ id, id ∉ jira.ID <$> [numbered_issue 1] →
               issueCache j_end !! id = issueCache stale_client !! id).
Proof.
  split; [apply single_issue_pages|]. split; [simpl; lia|].
  apply (C2_cache_merged sample_Parse 1 (paged_remote [numbered_issue 1])
           5000%Z stale_client _ _ (single_issue_pages _)).
  simpl. lia.
Defined.

(** C2 as stated fails when the cache holds an issue that the new
    retrieval no longer returns: issue 9 of the earlier cycle is still
    cached after a cycle that returned issue 1 alone. *)
Lemma C2_wholesale_counterexample :
  ¬ cache_replaced_wholesale sample_Parse 1
      (paged_remote [numbered_issue 1]) 5000%Z stale_client.
Proof.
  intros Hclaim.
  destruct (RefreshData_pages sample_Parse 1
              (paged_remote [numbered_issue 1]) 5000%Z stale_client
              _ _ _ (single_issue_pages _))
    as [Hget Hrefresh]; [simpl; lia|].
  destruct (Hclaim _ _ _ Hget) as (j_end & sent_end & Hend & Hcache).
  rewrite Hrefresh in Hend.
  apply (f_equal (λ o, match o with
                       | Returns (j0, _) => issueCache j0 !! "10009"
                       | _ => None
                       end)) in Hend.
  cbv beta iota in Hend. rewrite Hcache in Hend.
  vm_compute in Hend. discriminate.
Qed.

(** ** The query text *)

(** C3, at a client with the filter clause [priority = High]: the second
    [Sprintf] appends the clause to a text that already ends in its
    [ORDER BY] clause. The filter expression of the query is the one
    obtained without any clause, and the clause is part of the ordering. *)
Theorem C3_filter_after_order_by :
  buildJQL filtered_client
  = "project = INCI AND status not in (Cancelled,Rejected) AND created>=startOfYear(-1y) ORDER BY created DESC AND priority = High"
  ∧ buildJQL sample_client
    = "project = INCI AND status not in (Cancelled,Rejected) AND created>=startOfYear(-1y) ORDER BY created DESC"
  ∧ jql_filter (buildJQL filtered_client) = jql_filter (buildJQL sample_client)
  ∧ jql_ordering (buildJQL sample_client) = Some "created DESC"
  ∧ jql_ordering (buildJQL filtered_client)
    = Some "created DESC AND priority = High".
Proof. repeat split; reflexivity. Qed.

(** ** Successive refresh cycles *)

Lemma StronglySorted_sublist {A : Type} (R : relation A) (l1 l2 : list A) :
  l1 `sublist_of` l2 → StronglySorted R l2 → StronglySorted R l1.
Proof.
  induction 1 as [|x l1 l2 Hsub IH|x l1 l2 Hsub IH]; intros Hsorted.
  - constructor.
  - apply StronglySorted_inv in Hsorted as [Hrest Hall].
    constructor; [apply IH; exact Hrest|].
    apply Forall_forall. intros y Hy.
    apply (proj1 (Forall_forall _ _) Hall).
    eapply elem_of_sublist; eassumption.
  - apply StronglySorted_inv in Hsorted as [Hrest _]. apply IH. exact Hrest.
Qed.

Section CycleFacts.

Variable time_Parse : string → string → option Time.

(** A cycle leaves [lastRefresh] as it was or sets it to its clock
    reading. *)
Lemma RefreshData_lastRefresh (fuel : nat) (search : Remote) (now : Time)
  (j j' : JiraClient) sent :
  RefreshData time_Parse fuel search now j = Returns (j', sent) →
  lastRefresh j' = lastRefresh j ∨ lastRefresh j' = now.
Proof.
  rewrite RefreshData_unfold.
  destruct (GetIssues fuel search j) as [| |[[j1 sent1] [issues failure]]]
    eqn:Hget; [discriminate|discriminate|].
  unfold GetIssues in Hget. apply GetIssues_loop_sound in Hget
    as (requests & fetched & failure' & _ & [= -> _ _]).
  destruct failure; intros [= <- _].
  - left. apply storeAll_lastRefresh.
  - right. reflexivity.
Qed.

(** The times recorded by the successful cycles are clock readings, in
    the order of the cycles. *)
Lemma recorded_sublist (fuel : nat) (cycles : list Cycle) (j : JiraClient) :
  recorded time_Parse fuel cycles j `sublist_of` clock <$> cycles.
Proof.
  revert j. induction cycles as [|c cycles IH]; intros j; simpl.
  - constructor.
  - rewrite RefreshData_unfold.
    destruct (GetIssues fuel (remote c) j)
      as [| |[[j1 sent1] [issues [err|]]]].
    + apply sublist_nil_l.
    + apply sublist_nil_l.
    + apply sublist_cons, IH.
    + simpl. apply sublist_skip, IH.
Qed.

(** A run of [StartRefreshLoop] that returns has built its ticker and made
    the calls of [refreshCycles]. *)
Lemma StartRefreshLoop_returns (fuel : nat) (cycles : list Cycle)
  (j : JiraClient) (js : list JiraClient) :
  StartRefreshLoop time_Parse fuel cycles j = Returns js →
  (0 < tickerPeriod j)%Z ∧ refreshCycles time_Parse fuel cycles j = Returns js.
Proof.
  unfold StartRefreshLoop.
  destruct (Z.leb_spec (tickerPeriod j) 0); [discriminate|].
  intros Hrun. split; [lia|exact Hrun].
Qed.

(** C9. When the clock readings of the cycles are non-decreasing, the
    values of [lastRefresh] recorded by the successful cycles are
    non-decreasing: each is at most every later one. If moreover the
    initial [lastRefresh] is no later than the readings, [lastRefresh]
    never decreases from one cycle of [StartRefreshLoop] to the next,
    failed cycles included. *)
Theorem C9_lastRefresh_monotone (fuel : nat) (cycles : list Cycle)
  (j : JiraClient) :
  Sorted Z.le (clock <$> cycles) →
  StronglySorted Z.le (recorded time_Parse fuel cycles j)
  ∧ (∀ js,
       StartRefreshLoop time_Parse fuel cycles j = Returns js →
       Forall (Z.le (lastRefresh j)) (clock <$> cycles) →
       StronglySorted Z.le (lastRefresh <$> j :: js)).
Proof.
  intros Hclock. apply Sorted_StronglySorted in Hclock; [|intros x y z; lia].
  split.
  - eapply StronglySorted_sublist; [apply recorded_sublist|exact Hclock].
  - intros js Hrun Hinit. apply StartRefreshLoop_returns in Hrun as [_ Hrun].
    revert j Hclock js Hrun Hinit.
    induction cycles as [|c cycles IH]; intros j Hclock js Hrun Hinit.
    + injection Hrun as <-. simpl. repeat constructor.
    + simpl in Hrun.
      destruct (RefreshData time_Parse fuel (remote c) (clock c) j)
        as [| |[j1 sent1]] eqn:Hcycle; [discriminate|discriminate|].
      destruct (refreshCycles time_Parse fuel cycles j1) as [| |js1] eqn:Hrest;
        [discriminate|discriminate|].
      injection Hrun as <-.
      simpl in Hclock, Hinit.
      apply StronglySorted_inv in Hclock as [Hsorted Hlater].
      apply Forall_cons in Hinit as [Hfirst Hothers].
      apply RefreshData_lastRefresh in Hcycle.
      assert (Hstep : (lastRefresh j ≤ lastRefresh j1)%Z)
        by (destruct Hcycle as [->| ->]; [lia|exact Hfirst]).
      assert (Hinit1 : Forall (Z.le (lastRefresh j1)) (clock <$> cycles)).
      { destruct Hcycle as [->| ->]; [exact Hothers|exact Hlater]. }
      specialize (IH j1 Hsorted js1 Hrest Hinit1).
      change (lastRefresh <$> j :: j1 :: js1)
        with (lastRefresh j :: (lastRefresh <$> j1 :: js1)).
      constructor; [exact IH|].
      apply StronglySorted_inv in IH as [_ Hall].
      change (lastRefresh <$> j1 :: js1)
        with (lastRefresh j1 :: (lastRefresh <$> js1)).
      constructor; [exact Hstep|].
      eapply Forall_impl; [exact Hall|]. intros t Ht. simpl in Ht. lia.
Qed.

End CycleFacts.

Lemma sample_cycles_clock : Sorted Z.le (clock <$> sample_cycles).
Proof. simpl. repeat (constructor; try lia). Qed.

Lemma C9_lastRefresh_monotone_witness :
  Sorted Z.le (clock <$> sample_cycles)
  ∧ StronglySorted Z.le (recorded sample_Parse 2 sample_cycles sample_client)
  ∧ (∀ js,
       StartRefreshLoop sample_Parse 2 sample_cycles sample_client
       = Returns js →
       Forall (Z.le (lastRefresh sample_client)) (clock <$> sample_cycles) →
       StronglySorted Z.le (lastRefresh <$> sample_client :: js)).
Proof.
  split; [exact sample_cycles_clock|].
  apply (C9_lastRefresh_monotone sample_Parse 2 sample_cycles sample_client).
  exact sample_cycles_clock.
Defined.

(** * Further properties of the code *)

(** ** The field mapper *)

Section MapperMore.

Variable time_Parse : string → string → option Time.

(** X1. The standard fields are copied as they are: key, creation and
    update times, resolution date and issue-type name. The guards on the
    resolution date and on the type name change nothing: a zero date or
    an empty name is what the fresh record already holds. *)
Theorem X1_standard_fields_copied (issue : jira.Issue) :
  let out := convertIssue time_Parse issue in
  let f := jira.Fields issue in
  Key out = jira.Key issue
  ∧ Created out = jira.Created f
  ∧ Updated out = jira.Updated f
  ∧ Resolved out = jira.Resolutiondate f
  ∧ IsZero (Resolved out) = IsZero (jira.Resolutiondate f)
  ∧ IssueType out = jira.TypeName (jira.Type_ f).
Proof.
  cbv zeta. rewrite convertIssue_closed_form. repeat split; reflexivity.
Qed.

(** X2. Batches compose: an empty batch gives an empty slice and a nil
    error, the conversion of a concatenation is the concatenation of the
    conversions, and the keys of the output are the keys of the input in
    the same order. *)
Theorem X2_batches_compose (j : JiraClient) (l1 l2 : list jira.Issue) :
  ConvertToCustomIssues time_Parse j [] = (j, ([], None))
  ∧ (ConvertToCustomIssues time_Parse j (l1 ++ l2)).2
    = (((ConvertToCustomIssues time_Parse j l1).2.1
        ++ (ConvertToCustomIssues time_Parse j l2).2.1)%list, None)
  ∧ Key <$> (ConvertToCustomIssues time_Parse j l1).2.1 = jira.Key <$> l1.
Proof.
  rewrite !ConvertToCustomIssues_map. simpl.
  split; [reflexivity|]. split.
  - rewrite map_app. reflexivity.
  - induction l1 as [|i l1 IH]; [reflexivity|]. simpl.
    rewrite convertIssue_closed_form at 1. simpl. f_equal. exact IH.
Qed.

(** X3. The mapper reads seven vendor fields and no other entry of
    [Unknowns]: replacing or removing the value under any other
    identifier leaves the whole record as it was. Every identifier
    outside the field list of the page requests is such an identifier. *)
Theorem X3_unread_vendor_fields (issue : jira.Issue) (vendor : string)
  (raw : option jira.Value) :
  spec_target vendor = None ∨ vendor ∉ searchFields →
  convertIssue time_Parse
    (with_unknowns
       (partial_alter (λ _, raw) vendor (jira.Unknowns (jira.Fields issue)))
       issue)
  = convertIssue time_Parse issue.
Proof.
  intros Hvendor.
  assert (Hne : ∀ k, k ∈ vendorField <$> spec_customFieldTable → vendor ≠ k).
  { intros k Hk ->. simpl in Hk. destruct Hvendor as [Hnone|Hnot].
    - repeat (apply elem_of_cons in Hk as [->|Hk];
              [vm_compute in Hnone; discriminate|]).
      inversion Hk.
    - apply Hnot.
      repeat (apply elem_of_cons in Hk as [->|Hk];
              [apply (bool_decide_unpack _); vm_compute; exact I|]).
      inversion Hk. }
  rewrite !convertIssue_closed_form.
  unfold convertIssue_fields, with_unknowns. simpl.
  rewrite !lookup_partial_alter_ne; [reflexivity|..];
    apply Hne; apply (bool_decide_unpack _); vm_compute; exact I.
Qed.

End MapperMore.

Lemma X3_unread_vendor_fields_witness :
  (spec_target "customfield_20905" = None
   ∨ "customfield_20905" ∉ searchFields)
  ∧ convertIssue sample_Parse
      (with_unknowns
         (partial_alter (λ _, Some (jira.VString "2024-03-01T10:00:00.000+0000"))
            "customfield_20905" (jira.Unknowns (jira.Fields sample_issue)))
         sample_issue)
    = convertIssue sample_Parse sample_issue.
Proof.
  split; [left; reflexivity|].
  apply (X3_unread_vendor_fields sample_Parse). left. reflexivity.
Defined.

(** X4. [time.Parse] is consulted with the fixed layout and on non-empty
    strings only: two parsers that agree there give the same records. *)
Theorem X4_parser_use (parse1 parse2 : string → string → option Time) :
  (∀ value, value ≠ "" → parse1 timeLayout value = parse2 timeLayout value) →
  ∀ issue, convertIssue parse1 issue = convertIssue parse2 issue.
Proof.
  intros Hagree issue.
  assert (Hread : ∀ raw, readTimestamp parse1 raw = readTimestamp parse2 raw).
  { intros raw. unfold readTimestamp.
    destruct (as_string raw) as [val|]; [|reflexivity].
    destruct (String.eqb_spec val "") as [_|Hne]; simpl; [reflexivity|].
    apply Hagree. exact Hne. }
  rewrite !convertIssue_closed_form. unfold convertIssue_fields.
  rewrite !Hread. reflexivity.
Qed.

Lemma X4_parser_use_witness :
  (∀ value, value ≠ "" →
            sample_Parse timeLayout value = lenient_Parse timeLayout value)
  ∧ convertIssue sample_Parse sample_issue
    = convertIssue lenient_Parse sample_issue.
Proof.
  assert (Hagree : ∀ value, value ≠ "" →
            sample_Parse timeLayout value = lenient_Parse timeLayout value).
  { intros value Hne. unfold lenient_Parse.
    destruct (String.eqb_spec value ""); [contradiction|reflexivity]. }
  split; [exact Hagree|].
  apply (X4_parser_use sample_Parse lenient_Parse Hagree).
Defined.

(** ** The pagination loop *)

Section PagesMore.

Variables (search : Remote) (jql : string) (pageSize : nat).

Lemma pages_requests_shape (startAt : nat) requests fetched failure :
  pages search jql pageSize startAt requests fetched failure →
  Forall (λ r, jira.MaxResults r = pageSize
               ∧ jira.SearchFields r = searchFields) requests
  ∧ StronglySorted lt (jira.StartAt <$> requests)
  ∧ ∃ rest, jira.StartAt <$> requests = startAt :: rest
            ∧ Forall (lt startAt) rest.
Proof.
  induction 1 as [startAt cause Hpage | startAt Hpage
                 | startAt chunk Hpage Hlen
                 | startAt chunk requests fetched failure Hpage Hpos Hfull
                     Hrest (Hall & Hsorted & rest & Hoffsets & Hlater)].
  1-3: (split; [repeat constructor|];
        split; [repeat constructor|];
        exists []; split; [reflexivity|constructor]).
  split; [constructor; [split; reflexivity|exact Hall]|].
  assert (Hafter : Forall (lt startAt) (jira.StartAt <$> requests)).
  { rewrite Hoffsets. constructor; [lia|].
    eapply Forall_impl; [exact Hlater|]. intros o Ho. simpl in Ho. lia. }
  split.
  - change (jira.StartAt <$> pageRequest pageSize startAt :: requests)
      with (startAt :: (jira.StartAt <$> requests)).
    constructor; assumption.
  - exists (jira.StartAt <$> requests). split; [reflexivity|exact Hafter].
Qed.

Lemma pages_failure (startAt : nat) requests fetched cause :
  pages search jql pageSize startAt requests fetched (Some cause) →
  ∃ init last,
    requests = (init ++ [last])%list
    ∧ search jql last = SearchErr cause
    ∧ Forall (λ r, ∃ chunk, search jql r = SearchOk chunk
                            ∧ (pageSize ≤ length chunk)%nat) init.
Proof.
  remember (Some cause) as failure eqn:Hfailure.
  induction 1 as [startAt cause' Hpage | startAt Hpage
                 | startAt chunk Hpage Hlen
                 | startAt chunk requests fetched failure Hpage Hpos Hfull
                     Hrest IH]; try discriminate.
  - injection Hfailure as ->.
    exists [], (pageRequest pageSize startAt).
    split; [reflexivity|]. split; [exact Hpage|constructor].
  - destruct (IH Hfailure) as (init & last & -> & Hlast & Hinit).
    exists (pageRequest pageSize startAt :: init), last.
    split; [reflexivity|]. split; [exact Hlast|].
    constructor; [|exact Hinit]. exists chunk. split; [exact Hpage|lia].
Qed.

Lemma pages_success (startAt : nat) requests fetched :
  pages search jql pageSize startAt requests fetched None →
  Forall (λ r, ∃ chunk, search jql r = SearchOk chunk) requests
  ∧ (1 ≤ length requests)%nat
  ∧ ((length requests - 1) * pageSize ≤ length fetched)%nat
  ∧ (fetched = [] → length requests = 1%nat).
Proof.
  remember None as failure eqn:Hfailure.
  induction 1 as [startAt cause' Hpage | startAt Hpage
                 | startAt chunk Hpage Hlen
                 | startAt chunk requests fetched failure Hpage Hpos Hfull
                     Hrest IH]; try discriminate.
  - split; [repeat constructor; eexists; exact Hpage|].
    simpl. split; [lia|]. split; [lia|reflexivity].
  - split; [repeat constructor; eexists; exact Hpage|].
    simpl. split; [lia|]. split; [lia|reflexivity].
  - destruct (IH Hfailure) as (Hall & Hone & Hbound & _).
    split; [constructor; [eexists; exact Hpage|exact Hall]|].
    simpl. split; [lia|]. split.
    + rewrite length_app.
      destruct (length requests) as [|n]; [lia|].
      simpl in Hbound. rewrite Nat.sub_0_r in *. simpl. lia.
    + intros Hnil. apply (f_equal length) in Hnil.
      rewrite length_app in Hnil. simpl in Hnil. lia.
Qed.

(** X5. The page requests of a retrieval all carry the page size and the
    fixed field list, the first is at offset 0, and the offsets are
    strictly increasing. *)
Theorem X5_requests_shape (fuel : nat) (j : JiraClient) out :
  GetIssues_loop fuel search jql pageSize 0 [] j [] = Returns out →
  Forall (λ r, jira.MaxResults r = pageSize
               ∧ jira.SearchFields r = searchFields) out.1.2
  ∧ StronglySorted lt (jira.StartAt <$> out.1.2)
  ∧ ∃ rest, jira.StartAt <$> out.1.2 = 0%nat :: rest.
Proof.
  intros Hrun. apply GetIssues_loop_sound in Hrun
    as (requests & fetched & failure & Hpages & ->).
  apply pages_requests_shape in Hpages
    as (Hall & Hsorted & rest & Hoffsets & _).
  simpl. split; [exact Hall|]. split; [exact Hsorted|].
  exists rest. exact Hoffsets.
Qed.

(** X6. A retrieval that returns an error returns no issues; the error
    wraps the cause of the last request it issued, and every request
    before that one was answered with a page of at least the page size.
    A retrieval that returns a nil error had every request answered. *)
Theorem X6_error_return (fuel : nat) (j : JiraClient) out :
  GetIssues_loop fuel search jql pageSize 0 [] j [] = Returns out →
  match out.2.2 with
  | Some err =>
      out.2.1 = []
      ∧ ∃ cause init last,
          err = searchError cause
          ∧ out.1.2 = (init ++ [last])%list
          ∧ search jql last = SearchErr cause
          ∧ Forall (λ r, ∃ chunk, search jql r = SearchOk chunk
                                  ∧ (pageSize ≤ length chunk)%nat) init
  | None =>
      Forall (λ r, ∃ chunk, search jql r = SearchOk chunk) out.1.2
  end.
Proof.
  intros Hrun. apply GetIssues_loop_sound in Hrun
    as (requests & fetched & [cause|] & Hpages & ->); simpl.
  - split; [reflexivity|].
    apply pages_failure in Hpages as (init & last & -> & Hlast & Hinit).
    exists cause, init, last. repeat split; assumption.
  - apply pages_success in Hpages as (Hall & _). exact Hall.
Qed.

(** X7. A retrieval that succeeds after [n] requests returns at least
    [(n - 1) * pageSize] issues, and one that returns no issue has made
    exactly one request. *)
Theorem X7_success_bounds (fuel : nat) (j j' : JiraClient) sent issues :
  GetIssues_loop fuel search jql pageSize 0 [] j []
  = Returns (j', sent, (issues, None)) →
  (1 ≤ length sent)%nat
  ∧ ((length sent - 1) * pageSize ≤ length issues)%nat
  ∧ (issues = [] → length sent = 1%nat).
Proof.
  intros Hrun. apply GetIssues_loop_sound in Hrun
    as (requests & fetched & [cause|] & Hpages & Hout);
    simpl in Hout; [discriminate|].
  injection Hout as -> -> ->.
  apply pages_success in Hpages as (_ & Hone & Hbound & Hnil).
  repeat split; assumption.
Qed.

(** X8. The loop has no bound on the number of pages: against a remote
    that answers every request with a non-empty page of at least the page
    size, the retrieval never returns. *)
Theorem X8_no_page_bound :
  (∀ startAt, ∃ chunk,
      search jql (pageRequest pageSize startAt) = SearchOk chunk
      ∧ (0 < length chunk)%nat ∧ (pageSize ≤ length chunk)%nat) →
  ∀ fuel startAt allIssues j sent,
    GetIssues_loop fuel search jql pageSize startAt allIssues j sent
    = OutOfFuel.
Proof.
  intros Hfull. induction fuel as [|fuel IH];
    intros startAt allIssues j sent; [reflexivity|].
  simpl. fold (pageRequest pageSize startAt).
  destruct (Hfull startAt) as (chunk & -> & Hpos & Hsize).
  destruct (Nat.eqb_spec (length chunk) 0) as [Hz|_]; [lia|].
  destruct (Nat.ltb_spec (length chunk) pageSize) as [Hlt|_]; [lia|].
  apply IH.
Qed.

End PagesMore.

Lemma second_page_fails_run :
  GetIssues 2 second_page_fails sample_client = Returns second_page_outcome.
Proof.
  unfold GetIssues.
  rewrite (GetIssues_loop_complete _ _ _ _ _ _ _ (second_page_fails_pages _))
    by (simpl; lia).
  reflexivity.
Qed.

Lemma single_issue_run :
  GetIssues 1 (paged_remote [numbered_issue 1]) sample_client
  = Returns (storeAll [numbered_issue 1] sample_client,
             [pageRequest maxResults 0], ([numbered_issue 1], None)).
Proof.
  unfold GetIssues.
  rewrite (GetIssues_loop_complete _ _ _ _ _ _ _ (single_issue_pages _))
    by (simpl; lia).
  reflexivity.
Qed.

Lemma X5_requests_shape_witness :
  GetIssues 2 second_page_fails sample_client = Returns second_page_outcome
  ∧ Forall (λ r, jira.MaxResults r = maxResults
                 ∧ jira.SearchFields r = searchFields) second_page_outcome.1.2
  ∧ StronglySorted lt (jira.StartAt <$> second_page_outcome.1.2)
  ∧ ∃ rest, jira.StartAt <$> second_page_outcome.1.2 = 0%nat :: rest.
Proof.
  split; [exact second_page_fails_run|].
  apply (X5_requests_shape second_page_fails (buildJQL sample_client)
           maxResults 2 sample_client second_page_outcome).
  exact second_page_fails_run.
Defined.

Lemma X6_error_return_witness :
  GetIssues 2 second_page_fails sample_client = Returns second_page_outcome
  ∧ match second_page_outcome.2.2 with
    | Some err =>
        second_page_outcome.2.1 = []
        ∧ ∃ cause init last,
            err = searchError cause
            ∧ second_page_outcome.1.2 = (init ++ [last])%list
            ∧ second_page_fails (buildJQL sample_client) last
              = SearchErr cause
            ∧ Forall (λ r, ∃ chunk,
                        second_page_fails (buildJQL sample_client) r
                        = SearchOk chunk
                        ∧ (maxResults ≤ length chunk)%nat) init
    | None =>
        Forall (λ r, ∃ chunk,
                  second_page_fails (buildJQL sample_client) r
                  = SearchOk chunk) second_page_outcome.1.2
    end.
Proof.
  split; [exact second_page_fails_run|].
  apply (X6_error_return second_page_fails (buildJQL sample_client)
           maxResults 2 sample_client second_page_outcome).
  exact second_page_fails_run.
Defined.

Lemma five_issues_run :
  GetIssues_loop 3 (paged_remote five_issues) (buildJQL sample_client) 2 0 []
    sample_client []
  = Returns (storeAll five_issues sample_client, pageRequests 2 3,
             (five_issues, None)).
Proof.
  apply (paged_remote_retrieval five_issues (buildJQL sample_client) 2 3
           sample_client); [lia | simpl; lia].
Qed.

Lemma empty_result_run :
  GetIssues 1 (paged_remote []) sample_client
  = Returns (sample_client, [pageRequest maxResults 0], ([], None)).
Proof. reflexivity. Qed.

Lemma X7_success_bounds_witness :
  (GetIssues_loop 3 (paged_remote five_issues) (buildJQL sample_client) 2 0
     [] sample_client []
   = Returns (storeAll five_issues sample_client, pageRequests 2 3,
              (five_issues, None))
   ∧ (1 ≤ length (pageRequests 2 3))%nat
   ∧ ((length (pageRequests 2 3) - 1) * 2 ≤ length five_issues)%nat
   ∧ (five_issues = [] → length (pageRequests 2 3) = 1%nat))
  ∧ (GetIssues 1 (paged_remote []) sample_client
     = Returns (sample_client, [pageRequest maxResults 0], ([], None))
     ∧ (1 ≤ length [pageRequest maxResults 0])%nat
     ∧ ((length [pageRequest maxResults 0] - 1) * maxResults
        ≤ length (@nil jira.Issue))%nat
     ∧ (@nil jira.Issue = [] → length [pageRequest maxResults 0] = 1%nat)).
Proof.
  split.
  - split; [exact five_issues_run|].
    apply (X7_success_bounds (paged_remote five_issues)
             (buildJQL sample_client) 2 3 sample_client
             (storeAll five_issues sample_client)).
    exact five_issues_run.
  - split; [exact empty_result_run|].
    apply (X7_success_bounds (paged_remote []) (buildJQL sample_client)
             maxResults 1 sample_client sample_client).
    exact empty_result_run.
Defined.

Lemma endless_remote_full (jql : string) (startAt : nat) :
  ∃ chunk,
    endless_remote jql (pageRequest maxResults startAt) = SearchOk chunk
    ∧ (0 < length chunk)%nat ∧ (maxResults ≤ length chunk)%nat.
Proof.
  exists (replicate maxResults (numbered_issue 1)).
  split; [reflexivity|]. rewrite length_replicate. unfold maxResults. lia.
Qed.

Lemma X8_no_page_bound_witness :
  (∀ startAt, ∃ chunk,
      endless_remote (buildJQL sample_client) (pageRequest maxResults startAt)
      = SearchOk chunk
      ∧ (0 < length chunk)%nat ∧ (maxResults ≤ length chunk)%nat)
  ∧ GetIssues 50 endless_remote sample_client = OutOfFuel.
Proof.
  split; [exact (endless_remote_full _)|].
  apply (X8_no_page_bound endless_remote (buildJQL sample_client) maxResults
           (endless_remote_full _)).
Defined.

(** X9. A remote that caps its pages below the page size asked for ends
    the retrieval at its first page: the retrieval returns the first
    [cap] issues of the result set after a single request, however many
    more the remote holds. *)
Theorem X9_capped_remote (cap pageSize fuel : nat) (db : list jira.Issue)
  (jql : string) (j : JiraClient) :
  (0 < cap < pageSize)%nat →
  GetIssues_loop (S fuel) (capped_remote cap db) jql pageSize 0 [] j []
  = Returns (storeAll (take cap db) j, [pageRequest pageSize 0],
             (take cap db, None))
  ∧ length (take cap db) = (cap `min` length db)%nat.
Proof.
  intros Hcap. split; [|apply length_take].
  assert (Hpage : capped_remote cap db jql (pageRequest pageSize 0)
                  = SearchOk (take cap db)).
  { unfold capped_remote. simpl. rewrite Nat.min_l by lia. reflexivity. }
  assert (Hpages : pages (capped_remote cap db) jql pageSize 0
                     [pageRequest pageSize 0] (take cap db) None).
  { destruct (take cap db) as [|i rest] eqn:Htake.
    - apply pages_empty. exact Hpage.
    - apply pages_short; [exact Hpage|].
      rewrite <- Htake. split.
      + rewrite Htake. simpl. lia.
      + rewrite length_take. lia. }
  rewrite (GetIssues_loop_complete _ _ _ _ _ _ _ Hpages) by (simpl; lia).
  reflexivity.
Qed.

Lemma X9_capped_remote_witness :
  (0 < 100 < maxResults)%nat
  ∧ GetIssues 1 (capped_remote 100 sample_db) sample_client
    = Returns (storeAll (take 100 sample_db) sample_client,
               [pageRequest maxResults 0], (take 100 sample_db, None))
  ∧ length (take 100 sample_db) = (100 `min` length sample_db)%nat.
Proof.
  split; [unfold maxResults; lia|].
  apply (X9_capped_remote 100 maxResults 0 sample_db (buildJQL sample_client)
           sample_client).
  unfold maxResults. lia.
Defined.

(** ** The issue cache across refresh cycles *)

Lemma cacheAll_union (issues : list jira.Issue)
  (cache : gmap string jira.Issue) :
  cacheAll issues cache = cacheAll issues ∅ ∪ cache.
Proof.
  induction issues as [|i issues IH] using rev_ind.
  - simpl. symmetry. apply (left_id_L ∅ (∪)).
  - rewrite !cacheAll_snoc, IH. apply insert_union_l.
Qed.

Lemma cacheAll_idem (issues : list jira.Issue)
  (cache : gmap string jira.Issue) :
  cacheAll issues (cacheAll issues cache) = cacheAll issues cache.
Proof.
  rewrite (cacheAll_union issues (cacheAll issues cache)).
  rewrite (cacheAll_union issues cache) at 1 2.
  rewrite (assoc_L (∪)), (idemp_L (∪)). reflexivity.
Qed.

Lemma cacheAll_keeps (issues : list jira.Issue)
  (cache : gmap string jira.Issue) (id : string) :
  is_Some (cache !! id) → is_Some (cacheAll issues cache !! id).
Proof.
  intros Hid. induction issues as [|i issues IH] using rev_ind;
    [exact Hid|].
  rewrite cacheAll_snoc. apply lookup_insert_is_Some.
  destruct (decide (jira.ID i = id)); [left; assumption|right; split; assumption].
Qed.

Lemma cacheAll_last (issues : list jira.Issue)
  (cache : gmap string jira.Issue) (i : jira.Issue) :
  last issues = Some i → cacheAll issues cache !! jira.ID i = Some i.
Proof.
  destruct issues as [|x issues _] using rev_ind; [discriminate|].
  rewrite last_snoc. intros [= ->]. rewrite cacheAll_snoc.
  apply lookup_insert_eq.
Qed.

Lemma cacheAll_NoDup (issues : list jira.Issue)
  (cache : gmap string jira.Issue) (i : jira.Issue) :
  NoDup (jira.ID <$> issues) → i ∈ issues →
  cacheAll issues cache !! jira.ID i = Some i.
Proof.
  induction issues as [|x issues IH] using rev_ind; intros Hdup Hi.
  - inversion Hi.
  - rewrite cacheAll_snoc. rewrite fmap_app in Hdup.
    apply NoDup_app in Hdup as (Hdup & Hfresh & _).
    apply elem_of_app in Hi as [Hi|Hi].
    + rewrite lookup_insert_ne; [apply IH; assumption|].
      intros Heq. apply (Hfresh (jira.ID i)).
      * apply list_elem_of_fmap. exists i. split; [reflexivity|exact Hi].
      * simpl. rewrite Heq. apply list_elem_of_here.
    + apply list_elem_of_singleton in Hi. subst. apply lookup_insert_eq.
Qed.

Lemma storeAll_config (issues : list jira.Issue) (j : JiraClient) :
  baseURL (storeAll issues j) = baseURL j
  ∧ username (storeAll issues j) = username j
  ∧ projectKey (storeAll issues j) = projectKey j
  ∧ queryFilter (storeAll issues j) = queryFilter j
  ∧ refreshInterval (storeAll issues j) = refreshInterval j.
Proof. rewrite storeAll_cache. repeat split; reflexivity. Qed.

Section RefreshMore.

Variable time_Parse : string → string → option Time.

(** Whenever [RefreshData] returns, its retrieval has followed a course
    of [pages] and the client is the previous one with the fetched issues
    stored and, on success, the refresh time set. *)
Lemma RefreshData_sound (fuel : nat) (search : Remote) (now : Time)
  (j j' : JiraClient) sent :
  RefreshData time_Parse fuel search now j = Returns (j', sent) →
  ∃ fetched failure,
    pages search (buildJQL j) maxResults 0 sent fetched failure
    ∧ GetIssues fuel search j
      = Returns (storeAll fetched j, sent, retrieved [] fetched failure)
    ∧ j' = match failure with
           | None => set_lastRefresh now (storeAll fetched j)
           | Some _ => storeAll fetched j
           end.
Proof.
  rewrite RefreshData_unfold.
  destruct (GetIssues fuel search j) as [| |out] eqn:Hget; [discriminate|discriminate|].
  pose proof Hget as Hrun. unfold GetIssues in Hrun.
  apply GetIssues_loop_sound in Hrun
    as (requests & fetched & failure & Hpages & ->).
  intros Hend. exists fetched, failure.
  destruct failure; simpl in Hend; injection Hend as <- <-;
    (split; [exact Hpages|]); split; reflexivity.
Qed.

Lemma RefreshData_config (fuel : nat) (search : Remote) (now : Time)
  (j j' : JiraClient) sent :
  RefreshData time_Parse fuel search now j = Returns (j', sent) →
  baseURL j' = baseURL j ∧ username j' = username j
  ∧ projectKey j' = projectKey j ∧ queryFilter j' = queryFilter j
  ∧ refreshInterval j' = refreshInterval j ∧ buildJQL j' = buildJQL j.
Proof.
  intros Hrun. apply RefreshData_sound in Hrun
    as (fetched & failure & _ & _ & ->).
  destruct (storeAll_config fetched j) as (Hu & Hn & Hp & Hq & Hi).
  unfold buildJQL.
  destruct failure; simpl; rewrite ?Hp, ?Hq; repeat split; assumption.
Qed.

Lemma RefreshData_keeps (fuel : nat) (search : Remote) (now : Time)
  (j j' : JiraClient) sent (id : string) :
  RefreshData time_Parse fuel search now j = Returns (j', sent) →
  is_Some (issueCache j !! id) → is_Some (issueCache j' !! id).
Proof.
  intros Hrun Hid. apply RefreshData_sound in Hrun
    as (fetched & failure & _ & _ & ->).
  assert (Hstored : is_Some (issueCache (storeAll fetched j) !! id))
    by (rewrite storeAll_issueCache; apply cacheAll_keeps; exact Hid).
  destruct failure; exact Hstored.
Qed.

(** X10. The cache never loses an entry: an identifier cached before a
    run of refresh cycles is cached after every cycle of the run,
    successful or not. *)
Theorem X10_cache_never_evicts (fuel : nat) (cycles : list Cycle)
  (j : JiraClient) (js : list JiraClient) :
  StartRefreshLoop time_Parse fuel cycles j = Returns js →
  Forall (λ j', ∀ id, is_Some (issueCache j !! id) →
                      is_Some (issueCache j' !! id)) js.
Proof.
  intros Hrun. apply StartRefreshLoop_returns in Hrun as [_ Hrun].
  revert j js Hrun. induction cycles as [|c cycles IH]; intros j js Hrun;
    simpl in Hrun.
  - injection Hrun as <-. constructor.
  - destruct (RefreshData time_Parse fuel (remote c) (clock c) j)
      as [| |[j1 sent1]] eqn:Hcycle; [discriminate|discriminate|].
    destruct (refreshCycles time_Parse fuel cycles j1) as [| |js1] eqn:Hrest;
      [discriminate|discriminate|].
    injection Hrun as <-.
    pose proof (λ id, RefreshData_keeps _ _ _ _ _ _ id Hcycle) as Hkeep.
    constructor; [exact Hkeep|].
    eapply Forall_impl; [exact (IH j1 js1 Hrest)|].
    intros j' Hj' id Hid. apply Hj', Hkeep, Hid.
Qed.

(** X11. After a successful cycle the last issue returned is cached under
    its identifier, and when the returned issues have pairwise distinct
    identifiers each of them is. *)
Theorem X11_cache_round_trip (fuel : nat) (search : Remote) (now : Time)
  (j j1 : JiraClient) sent issues :
  GetIssues fuel search j = Returns (j1, sent, (issues, None)) →
  ∃ j_end,
    RefreshData time_Parse fuel search now j = Returns (j_end, sent)
    ∧ (∀ i, last issues = Some i →
            issueCache j_end !! jira.ID i = Some i)
    ∧ (NoDup (jira.ID <$> issues) →
       ∀ i, i ∈ issues → issueCache j_end !! jira.ID i = Some i).
Proof.
  intros Hget. pose proof Hget as Hrun. unfold GetIssues in Hrun.
  apply GetIssues_loop_sound in Hrun
    as (requests & fetched & [cause|] & Hpages & Hout);
    simpl in Hout; [discriminate|].
  injection Hout as -> -> ->.
  exists (set_lastRefresh now (storeAll fetched j)).
  split; [rewrite RefreshData_unfold, Hget; reflexivity|].
  change (issueCache (set_lastRefresh now (storeAll fetched j)))
    with (issueCache (storeAll fetched j)).
  rewrite storeAll_issueCache. split.
  - intros i Hi. apply cacheAll_last. exact Hi.
  - intros Hdup i Hi. apply cacheAll_NoDup; assumption.
Qed.

(** X12. Refreshing again against a remote that answers as before
    changes nothing but the refresh time: the second cycle issues the
    same requests and leaves the cache as the first one left it. *)
Theorem X12_repeated_refresh (fuel : nat) (search : Remote)
  (now1 now2 : Time) (j : JiraClient) requests fetched :
  pages search (buildJQL j) maxResults 0 requests fetched None →
  (length requests ≤ fuel)%nat →
  ∃ j1 j2,
    RefreshData time_Parse fuel search now1 j = Returns (j1, requests)
    ∧ RefreshData time_Parse fuel search now2 j1 = Returns (j2, requests)
    ∧ issueCache j2 = issueCache j1
    ∧ lastRefresh j2 = now2.
Proof.
  intros Hpages Hfuel.
  destruct (RefreshData_pages time_Parse fuel search now1 j _ _ _
              Hpages Hfuel) as [_ Hfirst].
  set (j1 := set_lastRefresh now1 (storeAll fetched j)) in *.
  assert (Hjql : buildJQL j1 = buildJQL j)
    by (eapply RefreshData_config; exact Hfirst).
  rewrite <- Hjql in Hpages.
  destruct (RefreshData_pages time_Parse fuel search now2 j1 _ _ _
              Hpages Hfuel) as [_ Hsecond].
  exists j1, (set_lastRefresh now2 (storeAll fetched j1)).
  split; [exact Hfirst|]. split; [exact Hsecond|].
  split; [|reflexivity].
  change (issueCache (set_lastRefresh now2 (storeAll fetched j1)))
    with (issueCache (storeAll fetched j1)).
  rewrite storeAll_issueCache.
  change (issueCache j1) with (issueCache (storeAll fetched j)).
  rewrite storeAll_issueCache. apply cacheAll_idem.
Qed.

End RefreshMore.

Section LoopMore.

Variable time_Parse : string → string → option Time.

(** X13. A run of refresh cycles never touches the configuration of the
    client: base URL, user name, project key, filter clause and refresh
    interval, and hence the query text, are those of the initial client
    after every cycle, successful or not. *)
Theorem X13_loop_keeps_configuration (fuel : nat) (cycles : list Cycle)
  (j : JiraClient) (js : list JiraClient) :
  StartRefreshLoop time_Parse fuel cycles j = Returns js →
  Forall (λ j', baseURL j' = baseURL j
                ∧ username j' = username j
                ∧ projectKey j' = projectKey j
                ∧ queryFilter j' = queryFilter j
                ∧ refreshInterval j' = refreshInterval j
                ∧ buildJQL j' = buildJQL j) js.
Proof.
  intros Hrun. apply StartRefreshLoop_returns in Hrun as [_ Hrun].
  revert j js Hrun. induction cycles as [|c cycles IH]; intros j js Hrun;
    simpl in Hrun.
  - injection Hrun as <-. constructor.
  - destruct (RefreshData time_Parse fuel (remote c) (clock c) j)
      as [| |[j1 sent1]] eqn:Hcycle; [discriminate|discriminate|].
    destruct (refreshCycles time_Parse fuel cycles j1) as [| |js1] eqn:Hrest;
      [discriminate|discriminate|].
    injection Hrun as <-.
    apply RefreshData_config in Hcycle as (Hu & Hn & Hp & Hq & Hi & Hjql).
    constructor; [repeat split; assumption|].
    eapply Forall_impl; [exact (IH j1 js1 Hrest)|].
    intros j' (Hu' & Hn' & Hp' & Hq' & Hi' & Hjql').
    rewrite Hu', Hn', Hp', Hq', Hi', Hjql'. repeat split; assumption.
Qed.

(** X14. After a run of refresh cycles [GetLastRefreshTime] returns the
    clock reading taken at the commit of the last successful cycle, and
    what it returned before the run when no cycle succeeded. *)
Theorem X14_last_refresh_time (fuel : nat) (cycles : list Cycle)
  (j : JiraClient) (js : list JiraClient) :
  StartRefreshLoop time_Parse fuel cycles j = Returns js →
  GetLastRefreshTime (default j (last js))
  = default (GetLastRefreshTime j)
      (last (success_clocks time_Parse fuel cycles j)).
Proof.
  intros Hrun. apply StartRefreshLoop_returns in Hrun as [_ Hrun].
  revert j js Hrun. induction cycles as [|c cycles IH]; intros j js Hrun;
    simpl in Hrun.
  - injection Hrun as <-. reflexivity.
  - destruct (RefreshData time_Parse fuel (remote c) (clock c) j)
      as [| |[j1 sent1]] eqn:Hcycle; [discriminate|discriminate|].
    destruct (refreshCycles time_Parse fuel cycles j1) as [| |js1] eqn:Hrest;
      [discriminate|discriminate|].
    injection Hrun as <-.
    specialize (IH j1 js1 Hrest).
    assert (Hlast : default j (last (j1 :: js1)) = default j1 (last js1)).
    { rewrite last_cons. destruct (last js1); reflexivity. }
    rewrite Hlast, IH. simpl. rewrite Hcycle.
    rewrite RefreshData_unfold in Hcycle.
    destruct (GetIssues fuel (remote c) j)
      as [| |[[j0 sent0] [issues [err|]]]] eqn:Hget; try discriminate;
      injection Hcycle as <- <-.
    + unfold GetIssues in Hget. apply GetIssues_loop_sound in Hget
        as (requests & fetched & failure & _ & [= -> _ _]).
      unfold GetLastRefreshTime. rewrite storeAll_lastRefresh. reflexivity.
    + unfold GetLastRefreshTime. rewrite last_cons.
      destruct (last (success_clocks time_Parse fuel cycles
                        (set_lastRefresh (clock c) j0))); reflexivity.
Qed.

End LoopMore.

Lemma short_cycles_run :
  StartRefreshLoop sample_Parse 1 short_cycles stale_client
  = Returns short_states.
Proof. vm_compute. reflexivity. Qed.

Lemma X10_cache_never_evicts_witness :
  StartRefreshLoop sample_Parse 1 short_cycles stale_client
  = Returns short_states
  ∧ Forall (λ j', ∀ id, is_Some (issueCache stale_client !! id) →
                        is_Some (issueCache j' !! id)) short_states.
Proof.
  split; [exact short_cycles_run|].
  apply (X10_cache_never_evicts sample_Parse 1 short_cycles stale_client).
  exact short_cycles_run.
Defined.

Lemma X11_cache_round_trip_witness :
  GetIssues 1 (paged_remote [numbered_issue 1]) sample_client
  = Returns (storeAll [numbered_issue 1] sample_client,
             [pageRequest maxResults 0], ([numbered_issue 1], None))
  ∧ ∃ j_end,
      RefreshData sample_Parse 1 (paged_remote [numbered_issue 1]) 5000%Z
        sample_client
      = Returns (j_end, [pageRequest maxResults 0])
      ∧ (∀ i, last [numbered_issue 1] = Some i →
              issueCache j_end !! jira.ID i = Some i)
      ∧ (NoDup (jira.ID <$> [numbered_issue 1]) →
         ∀ i, i ∈ [numbered_issue 1] →
              issueCache j_end !! jira.ID i = Some i).
Proof.
  split; [exact single_issue_run|].
  apply (X11_cache_round_trip sample_Parse 1
           (paged_remote [numbered_issue 1]) 5000%Z sample_client
           (storeAll [numbered_issue 1] sample_client)).
  exact single_issue_run.
Defined.

Lemma X12_repeated_refresh_witness :
  pages (paged_remote [numbered_issue 1]) (buildJQL stale_client)
    maxResults 0 [pageRequest maxResults 0] [numbered_issue 1] None
  ∧ (length [pageRequest maxResults 0] ≤ 1)%nat
  ∧ ∃ j1 j2,
      RefreshData sample_Parse 1 (paged_remote [numbered_issue 1]) 5000%Z
        stale_client
      = Returns (j1, [pageRequest maxResults 0])
      ∧ RefreshData sample_Parse 1 (paged_remote [numbered_issue 1]) 5300%Z
          j1
        = Returns (j2, [pageRequest maxResults 0])
      ∧ issueCache j2 = issueCache j1
      ∧ lastRefresh j2 = 5300%Z.
Proof.
  split; [apply single_issue_pages|]. split; [simpl; lia|].
  apply (X12_repeated_refresh sample_Parse 1
           (paged_remote [numbered_issue 1]) 5000%Z 5300%Z stale_client
           _ _ (single_issue_pages _)).
  simpl. lia.
Defined.

Lemma X13_loop_keeps_configuration_witness :
  StartRefreshLoop sample_Parse 1 short_cycles stale_client
  = Returns short_states
  ∧ Forall (λ j', baseURL j' = baseURL stale_client
                  ∧ username j' = username stale_client
                  ∧ projectKey j' = projectKey stale_client
                  ∧ queryFilter j' = queryFilter stale_client
                  ∧ refreshInterval j' = refreshInterval stale_client
                  ∧ buildJQL j' = buildJQL stale_client) short_states.
Proof.
  split; [exact short_cycles_run|].
  apply (X13_loop_keeps_configuration sample_Parse 1 short_cycles
           stale_client).
  exact short_cycles_run.
Defined.

Lemma X14_last_refresh_time_witness :
  StartRefreshLoop sample_Parse 1 short_cycles stale_client
  = Returns short_states
  ∧ last (success_clocks sample_Parse 1 short_cycles stale_client)
    = Some 5600%Z
  ∧ GetLastRefreshTime (default stale_client (last short_states))
    = default (GetLastRefreshTime stale_client)
        (last (success_clocks sample_Parse 1 short_cycles stale_client)).
Proof.
  split; [exact short_cycles_run|]. split; [vm_compute; reflexivity|].
  apply (X14_last_refresh_time sample_Parse 1 short_cycles stale_client).
  exact short_cycles_run.
Defined.
